(** * aws-mongodb-app: authentication and access-control contract

    Shallow embedding of the backend's JWT helpers ([utils/jwt.js]), the
    start-up script ([start.js]) and the users / products route handlers,
    with the properties of the specification stated and proved over it.

    External collaborators ([jsonwebtoken], [ms], Joi, Mongoose) are not
    part of the repository; each is modelled in a module of its own, as far
    as the repository's code calls it. *)

From Stdlib Require Import ZArith QArith Qround Ascii.
From stdpp Require Import base option list strings gmap fin_maps.

Local Open Scope Z_scope.

(* ===================================================================== *)
(** * JavaScript values and helpers                                       *)
(* ===================================================================== *)

Module Js.

(** JSON primitives, as they occur as claim values, option values and
    request-body fields. Numbers are restricted to integers (the
    NumericDate values and second counts the code handles). *)
Inductive JVal : Type :=
| JNull
| JBool (b : bool)
| JNum (n : Z)
| JStr (s : string).

#[global] Instance JVal_eq_dec : EqDecision JVal.
Proof. solve_decision. Defined.

(** [!!v] of JavaScript. *)
Definition truthy (v : JVal) : bool :=
  match v with
  | JNull => false
  | JBool b => b
  | JNum n => negb (n =? 0)
  | JStr s => negb (String.eqb s "")
  end.

(** Truthiness of a possibly [undefined] value. *)
Definition truthy_opt (o : option JVal) : bool :=
  match o with
  | None => false
  | Some v => truthy v
  end.

(** [a || b] for a possibly [undefined] value [a] and a string [b]. *)
Definition or_string (a : option JVal) (b : string) : JVal :=
  match a with
  | Some v => if truthy v then v else JStr b
  | None => JStr b
  end.

(** Truthiness of [process.env.X]: a string or [undefined]. *)
Definition env_truthy (o : option string) : bool :=
  match o with
  | None => false
  | Some s => negb (String.eqb s "")
  end.

(** [process.env.X || dflt]. *)
Definition env_or (o : option string) (dflt : string) : string :=
  match o with
  | Some s => if String.eqb s "" then dflt else s
  | None => dflt
  end.

(** [s.split(sep)] for a one-character separator: every occurrence of
    [sep] ends a segment, empty segments are kept. *)
Fixpoint split (sep : ascii) (s : string) : list string :=
  match s with
  | EmptyString => [EmptyString]
  | String c rest =>
      if Ascii.eqb c sep then EmptyString :: split sep rest
      else match split sep rest with
           | [] => [String c EmptyString]
           | seg :: segs => String c seg :: segs
           end
  end.

(** The characters of a string. *)
Fixpoint chars (s : string) : list ascii :=
  match s with
  | EmptyString => []
  | String c rest => c :: chars rest
  end.

(** A JavaScript string is held as its UTF-8 encoding, one [ascii] per
    byte. Its [.length] counts UTF-16 code units: a code point below
    U+10000 (one to three bytes) is one unit, a code point from U+10000
    on (four bytes) is a surrogate pair, two units. [code_units] is the
    share of each byte: the lead byte carries the count of its code
    point, a continuation byte carries none. *)
Definition code_units (byte : ascii) : nat :=
  let n := nat_of_ascii byte in
  if (n <? 128)%nat then 1%nat
  else if (n <? 192)%nat then 0%nat
  else if (n <? 240)%nat then 1%nat
  else 2%nat.

(** [s.length]. *)
Fixpoint utf16_length (s : string) : nat :=
  match s with
  | EmptyString => 0%nat
  | String byte rest => (code_units byte + utf16_length rest)%nat
  end.

End Js.

(* ===================================================================== *)
(** * Numbers: IEEE 754 binary64                                          *)
(* ===================================================================== *)

(** A JavaScript number that is not an integer of the model is a double.
    A finite double is held as the rational it denotes; an operation is
    the exact operation followed by rounding to the nearest double, ties
    to the even significand. Only the normal range is modelled (no
    overflow to infinity, no subnormals): the quantities at hand are
    timespans of at most 100 characters of decimal digits times a unit. *)
Module Double.

(** [2 ^ k] for any integer [k]. *)
Definition pow2 (k : Z) : Q :=
  if 0 <=? k then inject_Z (2 ^ k) else 1 # Z.to_pos (2 ^ (- k)).

(** The double nearest to [n / d], for [n > 0]. With
    [2 ^ e <= n / d < 2 ^ (e + 1)], the significand is [n / d] scaled by
    [2 ^ (52 - e)] and rounded to an integer, half-way cases to the even
    one. *)
Definition round_pos (n : Z) (d : positive) : Q :=
  let e0 := Z.log2 n - Z.log2 (Zpos d) in
  let below :=
    if 0 <=? e0 then n <? Zpos d * 2 ^ e0 else n * 2 ^ (- e0) <? Zpos d in
  let e := if below then e0 - 1 else e0 in
  let shift := 52 - e in
  let N := if 0 <=? shift then n * 2 ^ shift else n in
  let D := if 0 <=? shift then Zpos d else Zpos d * 2 ^ (- shift) in
  let m0 := N / D in
  let r := N mod D in
  let m := if D <? 2 * r then m0 + 1
           else if (D =? 2 * r) && Z.odd m0 then m0 + 1
           else m0 in
  Qred (inject_Z m * pow2 (- shift)).

Definition round (q : Q) : Q :=
  match Qnum q with
  | 0 => 0%Q
  | Zpos n => round_pos (Zpos n) (Qden q)
  | Zneg n => Qopp (round_pos (Zpos n) (Qden q))
  end.

Definition add (a b : Q) : Q := round (a + b).
Definition mul (a b : Q) : Q := round (a * b).
Definition div (a b : Q) : Q := round (a / b).

End Double.

(* ===================================================================== *)
(** * The [ms] package: timespan strings to milliseconds                  *)
(* ===================================================================== *)

(** Model of [ms(str)] for a string argument, as [jsonwebtoken] calls it.
    The string must match
    [-?(\d+)?\.?\d+ *(unit)?] (case-insensitive unit, at most 100
    characters); the result is [parseFloat] of the number, times the
    unit's length in milliseconds when a unit is given, [None] standing
    for [undefined]. The numbers are doubles. *)
Module Ms.

Definition to_lower (c : ascii) : ascii :=
  let n := nat_of_ascii c in
  if (65 <=? n)%nat && (n <=? 90)%nat then ascii_of_nat (n + 32) else c.

Fixpoint lower (s : string) : string :=
  match s with
  | EmptyString => EmptyString
  | String c rest => String (to_lower c) (lower rest)
  end.

(** Reads the longest prefix of digits: its value, its length and the
    rest of the string. *)
Fixpoint digits (s : string) (acc : Z) (len : nat) : Z * nat * string :=
  match s with
  | EmptyString => (acc, len, EmptyString)
  | String c rest =>
      match Ascii.is_nat c with
      | Some d => digits rest (10 * acc + Z.of_nat d) (S len)
      | None => (acc, len, s)
      end
  end.

Fixpoint skip_spaces (s : string) : string :=
  match s with
  | String " " rest => skip_spaces rest
  | _ => s
  end.

Definition s_ms : Q := 1000.
Definition m_ms : Q := s_ms * 60.
Definition h_ms : Q := m_ms * 60.
Definition d_ms : Q := h_ms * 24.
Definition w_ms : Q := d_ms * 7.
Definition y_ms : Q := d_ms * (36525 # 100).

Definition unit_ms (u : string) : option Q :=
  if bool_decide (u ∈ ["years"; "year"; "yrs"; "yr"; "y"]) then Some y_ms
  else if bool_decide (u ∈ ["weeks"; "week"; "w"]) then Some w_ms
  else if bool_decide (u ∈ ["days"; "day"; "d"]) then Some d_ms
  else if bool_decide (u ∈ ["hours"; "hour"; "hrs"; "hr"; "h"]) then Some h_ms
  else if bool_decide (u ∈ ["minutes"; "minute"; "mins"; "min"; "m"]) then Some m_ms
  else if bool_decide (u ∈ ["seconds"; "second"; "secs"; "sec"; "s"]) then Some s_ms
  else if bool_decide (u ∈ ["milliseconds"; "millisecond"; "msecs"; "msec"; "ms"])
  then Some 1%Q
  else None.

(** The decimal literal at the head of the string, as the rational it
    writes, and what follows it. *)
Definition number (s : string) : option (Q * string) :=
  let '(neg, s1) :=
    match s with
    | String "-" rest => (true, rest)
    | _ => (false, s)
    end in
  let '(int_part, int_len, s2) := digits s1 0 0 in
  let signed (q : Q) : Q := if neg then Qopp q else q in
  let whole :=
    if (int_len =? 0)%nat then None
    else Some (signed (inject_Z int_part), s2) in
  match s2 with
  | String "." s3 =>
      let '(frac_part, frac_len, s4) := digits s3 0 0 in
      if (frac_len =? 0)%nat then whole
      else
        let scale := (10 ^ Z.of_nat frac_len)%Z in
        Some (signed (Qmake (int_part * scale + frac_part) (Z.to_pos scale)), s4)
  | _ => whole
  end.

(** [parse(str)]: [n = parseFloat(match[1])] is the double nearest to
    the literal, and the result is [n] or [n * unit]. *)
Definition parse (str : string) : option Q :=
  if (100 <? Js.utf16_length str)%nat then None
  else
    match number str with
    | None => None
    | Some (literal, rest) =>
        let n := Double.round literal in
        let u := skip_spaces rest in
        if String.eqb u "" then Some n
        else match unit_ms (lower u) with
             | Some len => Some (Double.mul n len)
             | None => None
             end
    end.

End Ms.

(* ===================================================================== *)
(** * The [jsonwebtoken] package                                          *)
(* ===================================================================== *)

(** Symbolic model of [jwt.sign], [jwt.verify] and [jwt.decode]
    (jsonwebtoken 9), as called by [utils/jwt.js]. A token string is
    either the compact serialisation of a header, a JSON-object payload and
    a signature, or any other string. HMAC is ideal: a signature verifies
    under a key exactly when it was computed under that key, with the
    header's algorithm, over this header and payload. Error messages are
    given without the quotation marks that the package puts around option
    and claim names. *)
Module Jsonwebtoken.
Import Js.

Inductive Result (A : Type) : Type :=
| Ok (a : A)
| Throw (e : string * string).
Arguments Ok {A} a.
Arguments Throw {A} e.

(** Thrown errors: the error's [name] and its [message]. *)
Definition Error (msg : string) : string * string := ("Error", msg).
Definition JsonWebTokenError (msg : string) : string * string :=
  ("JsonWebTokenError", msg).
Definition TokenExpiredError : string * string :=
  ("TokenExpiredError", "jwt expired").
Definition NotBeforeError : string * string :=
  ("NotBeforeError", "jwt not active").

Inductive Signature : Type :=
| SigEmpty
| SigHmac (key : string)
| SigOther (raw : string).

#[global] Instance Signature_eq_dec : EqDecision Signature.
Proof. solve_decision. Defined.

Inductive Token : Type :=
| Malformed (raw : string)
| Jws (alg : string) (payload : gmap string JVal) (signature : Signature).

Record SignOptions := {
  so_expiresIn : JVal;
  so_issuer : string;
  so_audience : string
}.

Record VerifyOptions := {
  vo_issuer : string;
  vo_audience : string
}.

(** [timespan(time, iat)] of jsonwebtoken's [lib/timespan.js]; for a
    string, [Math.floor(timestamp + milliseconds / 1000)], the quotient
    and the sum in double arithmetic. The timestamp is a whole number of
    seconds: a clock reading, of absolute value below [2 ^ 52] (a Date
    spans 8.64e12 seconds either way), is a double as it stands. An
    integer beyond that range is no reading of the clock; there the sum
    is taken exactly, as integer arithmetic is throughout. *)
Definition timespan (time : JVal) (iat : Z) : option Z :=
  match time with
  | JStr t =>
      match Ms.parse t with
      | Some milliseconds =>
          let seconds := Double.div milliseconds 1000 in
          if Z.abs iat <=? 2 ^ 52
          then Some (Qfloor (Double.add (inject_Z iat) seconds))
          else Some (iat + Qfloor seconds)
      | None => None
      end
  | JNum t => Some (iat + t)
  | _ => None
  end.

Definition is_number (o : option JVal) : bool :=
  match o with
  | Some (JNum _) => true
  | _ => false
  end.

(** A registered claim of the payload is absent or a number. *)
Definition number_claim_ok (payload : gmap string JVal) (claim : string) : bool :=
  match payload !! claim with
  | None => true
  | Some v => is_number (Some v)
  end.

(** [payload.iat || Math.floor(Date.now() / 1000)], on a validated
    payload. *)
Definition timestamp_of (payload : gmap string JVal) (now : Z) : Z :=
  match payload !! "iat" with
  | Some (JNum t) => if t =? 0 then now else t
  | _ => now
  end.

(** [jwt.sign(payload, secretOrPrivateKey, options)] for an object
    payload, read at clock [now] (seconds). *)
Definition sign (now : Z) (payload : gmap string JVal)
    (secretOrPrivateKey : option string) (options : SignOptions) : Result Token :=
  if negb (env_truthy secretOrPrivateKey)
  then Throw (Error "secretOrPrivateKey must have a value")
  else if negb (number_claim_ok payload "iat")
  then Throw (Error "iat should be a number of seconds")
  else if negb (number_claim_ok payload "exp")
  then Throw (Error "exp should be a number of seconds")
  else if negb (number_claim_ok payload "nbf")
  then Throw (Error "nbf should be a number of seconds")
  else if bool_decide (is_Some (payload !! "exp"))
  then Throw (Error "Bad options.expiresIn option the payload already has an exp property.")
  else if negb (match so_expiresIn options with
                | JNum _ => true
                | JStr t => negb (String.eqb t "")
                | _ => false
                end)
  then Throw (Error "expiresIn should be a number of seconds or string representing a timespan")
  else
    let timestamp := timestamp_of payload now in
    let payload := <["iat" := JNum timestamp]> payload in
    match timespan (so_expiresIn options) timestamp with
    | None =>
        Throw (Error "expiresIn should be a number of seconds or string representing a timespan eg: 1d, 20h, 60")
    | Some exp =>
        let payload := <["exp" := JNum exp]> payload in
        if bool_decide (is_Some (payload !! "aud"))
        then Throw (Error "Bad options.audience option. The payload already has an aud property.")
        else
          let payload := <["aud" := JStr (so_audience options)]> payload in
          if bool_decide (is_Some (payload !! "iss"))
          then Throw (Error "Bad options.issuer option. The payload already has an iss property.")
          else
            let payload := <["iss" := JStr (so_issuer options)]> payload in
            match secretOrPrivateKey with
            | Some key => Ok (Jws "HS256" payload (SigHmac key))
            | None => Throw (Error "secretOrPrivateKey must have a value")
            end
    end.

(** [jwt.decode(token)]: the payload, [None] for [null]. *)
Definition decode (token : Token) : option (gmap string JVal) :=
  match token with
  | Malformed _ => None
  | Jws _ payload _ => Some payload
  end.

(** [jwt.decode(token, { complete: true })]. *)
Definition decode_complete (token : Token)
    : option (string * gmap string JVal * Signature) :=
  match token with
  | Malformed _ => None
  | Jws alg payload signature => Some (alg, payload, signature)
  end.

(** [jwt.verify(token, secretOrPublicKey, { issuer, audience })], read at
    clock [now] (seconds). *)
Definition verify (now : Z) (token : Token) (secretOrPublicKey : option string)
    (options : VerifyOptions) : Result (gmap string JVal) :=
  match token with
  | Malformed raw =>
      if String.eqb raw "" then Throw (JsonWebTokenError "jwt must be provided")
      else if bool_decide (length (split "." raw) ≠ 3%nat)
      then Throw (JsonWebTokenError "jwt malformed")
      else Throw (JsonWebTokenError "invalid token")
  | Jws alg payload signature =>
      let hasSignature := negb (bool_decide (signature = SigEmpty)) in
      let hasKey := env_truthy secretOrPublicKey in
      if negb hasSignature && hasKey
      then Throw (JsonWebTokenError "jwt signature is required")
      else if hasSignature && negb hasKey
      then Throw (JsonWebTokenError "secret or public key must be provided")
      else if negb hasSignature
      then Throw (JsonWebTokenError "please specify none in algorithms to verify unsigned tokens")
      else if negb (bool_decide (alg ∈ ["HS256"; "HS384"; "HS512"]))
      then Throw (JsonWebTokenError "invalid algorithm")
      else if negb (bool_decide (SigHmac <$> secretOrPublicKey = Some signature))
      then Throw (JsonWebTokenError "invalid signature")
      else if negb (number_claim_ok payload "nbf")
      then Throw (JsonWebTokenError "invalid nbf value")
      else if match payload !! "nbf" with
              | Some (JNum nbf) => now <? nbf
              | _ => false
              end
      then Throw NotBeforeError
      else if negb (number_claim_ok payload "exp")
      then Throw (JsonWebTokenError "invalid exp value")
      else if match payload !! "exp" with
              | Some (JNum exp) => exp <=? now
              | _ => false
              end
      then Throw TokenExpiredError
      else if negb (bool_decide (payload !! "aud" = Some (JStr (vo_audience options))))
      then Throw (JsonWebTokenError
                    ("jwt audience invalid. expected: " +:+ vo_audience options))
      else if negb (bool_decide (payload !! "iss" = Some (JStr (vo_issuer options))))
      then Throw (JsonWebTokenError
                    ("jwt issuer invalid. expected: " +:+ vo_issuer options))
      else Ok payload
  end.

End Jsonwebtoken.

(* ===================================================================== *)
(** * utils/jwt.js                                                         *)
(* ===================================================================== *)

Module JwtUtils.
Import Js Jsonwebtoken.

(** The optional second argument of [generateToken]; every key may be
    missing ([options = {}] by default). *)
Record TokenOptions := {
  role : option JVal;
  email : option JVal;
  expiresIn : option JVal
}.

Definition noOptions : TokenOptions :=
  {| role := None; email := None; expiresIn := None |}.

(** [process.env.APP_NAME || 'AWS MongoDB Backend']. *)
Definition issuer (env : gmap string string) : string :=
  env_or (env !! "APP_NAME") "AWS MongoDB Backend".

Definition audience : string := "aws-mongodb-app-users".

(** [if (options.k) payload.k = options.k]. *)
Definition add_if_truthy (k : string) (o : option JVal)
    (payload : gmap string JVal) : gmap string JVal :=
  match o with
  | Some v => if truthy v then <[k := v]> payload else payload
  | None => payload
  end.

(** [const payload = { userId }] with [role] and [email] added. *)
Definition accessPayload (userId : string) (options : TokenOptions)
    : gmap string JVal :=
  let payload : gmap string JVal := {[ "userId" := JStr userId ]} in
  let payload := add_if_truthy "role" (role options) payload in
  add_if_truthy "email" (email options) payload.

(** [const tokenOptions = { expiresIn, issuer, audience }]. *)
Definition tokenOptions (env : gmap string string) (options : TokenOptions)
    : SignOptions :=
  {| so_expiresIn :=
       or_string (expiresIn options) (env_or (env !! "JWT_EXPIRE") "7d");
     so_issuer := issuer env;
     so_audience := audience |}.

(** [generateToken(userId, options)] with [process.env = env], the clock
    reading [now] seconds. *)
Definition generateToken (env : gmap string string) (now : Z)
    (userId : string) (options : TokenOptions) : Result Token :=
  sign now (accessPayload userId options) (env !! "JWT_SECRET")
       (tokenOptions env options).

(** [generateRefreshToken(userId)]. *)
Definition generateRefreshToken (env : gmap string string) (now : Z)
    (userId : string) : Result Token :=
  sign now
    {[ "userId" := JStr userId; "type" := JStr "refresh" ]}
    (env !! "JWT_SECRET")
    {| so_expiresIn := JStr "30d";
       so_issuer := issuer env;
       so_audience := audience |}.

(** [verifyToken(token)]: the [try]/[catch] rethrows. *)
Definition verifyToken (env : gmap string string) (now : Z)
    (token : Token) : Result (gmap string JVal) :=
  verify now token (env !! "JWT_SECRET")
    {| vo_issuer := issuer env; vo_audience := audience |}.

(** [decodeToken(token)]. *)
Definition decodeToken (token : Token)
    : option (string * gmap string JVal * Signature) :=
  decode_complete token.

(** [extractTokenFromHeader(authHeader)]: [authHeader] is the value of
    the Authorization header, [None] when the header is missing. *)
Definition extractTokenFromHeader (authHeader : option string) : option string :=
  match authHeader with
  | None => None
  | Some h =>
      if String.eqb h "" then None
      else
        let parts := split " " h in
        if bool_decide (length parts ≠ 2%nat)
           || bool_decide (parts !! 0%nat ≠ Some "Bearer")
        then None
        else parts !! 1%nat
  end.

Section Expiry.
(** [s < n] of JavaScript for a string [s] and a number [n]: the
    string is converted to a number first ([false] when it is not
    numeric). The conversion is the language's, and is left open. *)
Variable string_lt_number : string → Z → bool.

(** [v < n] for a number [n]. *)
Definition lt_number (v : JVal) (n : Z) : bool :=
  match v with
  | JNull => 0 <? n
  | JBool b => (if b then 1 else 0) <? n
  | JNum e => e <? n
  | JStr s => string_lt_number s n
  end.

(** [isTokenExpired(token)], [currentTime] being
    [Math.floor(Date.now() / 1000)]. A token that does not decode
    gives [null] or an exception, both of which return [true]. *)
Definition isTokenExpired (token : Token) (currentTime : Z) : bool :=
  match decode token with
  | None => true
  | Some decoded =>
      if negb (truthy_opt (decoded !! "exp")) then true
      else
        match decoded !! "exp" with
        | Some exp => lt_number exp currentTime
        | None => true
        end
  end.
End Expiry.

End JwtUtils.

(* ===================================================================== *)
(** * start.js                                                             *)
(* ===================================================================== *)

Module Start.
Import Js.

(** What the script does, in order. [RequireServer] is
    [require('./server.js')], the only place where the server is
    started; [ProcessExit] ends the process, nothing follows it. *)
Inductive Effect : Type :=
| ConsoleLog (line : string)
| ConsoleError (line : string)
| ProcessExit (code : Z)
| RequireServer (env : gmap string string).

Definition requiredEnvVars : list string := ["JWT_SECRET"; "MONGODB_URI"].

Definition newline : string := String "010"%char "".

(** [require('dotenv').config()]: the variables of the [.env] file are
    added to [process.env]; a variable already set keeps its value. *)
Definition dotenv_config (fileVars processEnv : gmap string string)
    : gmap string string :=
  processEnv ∪ fileVars.

(** [process.env] as the checks of the script see it. *)
Definition startupEnv (envFile : option (gmap string string))
    (processEnv : gmap string string) : gmap string string :=
  match envFile with
  | Some fileVars => dotenv_config fileVars processEnv
  | None => processEnv
  end.

(** The script, run with the [.env] file [envFile] ([None] when the file
    does not exist) and the inherited environment [processEnv]. *)
Definition start (envFile : option (gmap string string))
    (processEnv : gmap string string) : list Effect :=
  ConsoleLog ("🚀 Starting AWS MongoDB Backend Application..." +:+ newline) ::
  match envFile with
  | None =>
      [ ConsoleError "❌ Error: .env file not found!";
        ConsoleLog "Please create a .env file based on .env.example";
        ProcessExit 1 ]
  | Some fileVars =>
      let env := dotenv_config fileVars processEnv in
      let missingEnvVars :=
        List.filter (λ envVar, negb (env_truthy (env !! envVar))) requiredEnvVars in
      if (0 <? length missingEnvVars)%nat then
        ConsoleError "❌ Error: Missing required environment variables:" ::
        ((λ envVar, ConsoleLog ("  - " +:+ envVar)) <$> missingEnvVars) ++
        [ ProcessExit 1 ]
      else
        [ ConsoleLog "✅ Environment variables loaded successfully";
          ConsoleLog ("📊 Environment: " +:+ env_or (env !! "NODE_ENV") "development");
          ConsoleLog ("🔌 Port: " +:+ env_or (env !! "PORT") "5000");
          ConsoleLog ("🗄️  Database: " +:+ default "undefined" (env !! "MONGODB_URI"));
          ConsoleLog ("🔐 JWT configured with " +:+ env_or (env !! "JWT_EXPIRE") "7d"
                      +:+ " expiration");
          ConsoleLog "";
          RequireServer env ]
  end.

(** The process ended with exit code 1 and never started the server. *)
Definition exitsBeforeServing (trace : list Effect) : Prop :=
  last trace = Some (ProcessExit 1) ∧ ∀ env, RequireServer env ∉ trace.

End Start.

(* ===================================================================== *)
(** * The document store (Mongoose models)                                *)
(* ===================================================================== *)

Module Mongoose.
Import Js.

(** Modelled from the spec: the User model ([models/User.js]) is not
    available. The record has the fields of the specification's
    credential record, which are also the fields of the user document
    that [mongodb/init-scripts/init.js] inserts. *)
Record User := {
  username : string;
  email : string;
  password : string;
  firstName : string;
  lastName : string;
  role : string;
  isActive : bool;
  createdAt : Z;
  updatedAt : Z
}.

(** [productSchema] of [models/Product.js]. *)
Record Product := {
  p_name : string;
  p_description : string;
  p_price : Q;
  p_category : string;
  p_stock : Z;
  p_images : list (string * string);
  p_specifications : gmap string string;
  p_tags : list string;
  p_isActive : bool;
  p_createdBy : string;
  p_createdAt : Z;
  p_updatedAt : Z
}.

(** The two collections, keyed by ObjectId (its canonical hex string). *)
Record Store := {
  users : gmap string User;
  products : gmap string Product
}.

Inductive Query (A : Type) : Type :=
| Resolve (a : A)
| CastError.
Arguments Resolve {A} a.
Arguments CastError {A}.

Definition isHexDigit (c : ascii) : bool :=
  let n := nat_of_ascii c in
  ((48 <=? n) && (n <=? 57) || (65 <=? n) && (n <=? 70)
   || (97 <=? n) && (n <=? 102))%nat.

(** The cast of a string of 24 hexadecimal digits, the form of an
    ObjectId that every version accepts (versions differ on strings of
    12 characters); the digits are case-insensitive. Used where a
    concrete cast is needed. *)
Definition castHex24 (s : string) : option string :=
  if (String.length s =? 24)%nat && forallb isHexDigit (chars s)
  then Some (Ms.lower s)
  else None.

Section Collection.
(** Mongoose's cast of a route parameter to an ObjectId: [None] when
    the string is not one, in which case the query rejects with a
    CastError. Which strings are ObjectIds depends on the versions of
    Mongoose and bson; the cast is left open. *)
Variable castObjectId : string → option string.

Context {Doc : Type}.

(** [Model.findById(id)]: the document with its [_id], [None] for
    [null]. *)
Definition findById (coll : gmap string Doc) (id : string)
    : Query (option (string * Doc)) :=
  match castObjectId id with
  | None => CastError
  | Some oid => Resolve ((λ doc, (oid, doc)) <$> coll !! oid)
  end.

(** [Model.findOne(conditions)] where the conditions are [cond] on the
    document and [_id: { $ne: id }]. *)
Definition findOne_ne (coll : gmap string Doc) (cond : Doc → bool) (id : string)
    : Query (option (string * Doc)) :=
  match castObjectId id with
  | None => CastError
  | Some oid =>
      Resolve (head (List.filter (λ kv, cond kv.2 && negb (String.eqb kv.1 oid))
                            (map_to_list coll)))
  end.

(** [Model.findByIdAndUpdate(id, update, { new: true })]: the updated
    document ([None] when there is none with this id) and the
    collection afterwards. *)
Definition findByIdAndUpdate (coll : gmap string Doc) (id : string)
    (update : Doc → Doc) : Query (option (string * Doc) * gmap string Doc) :=
  match castObjectId id with
  | None => CastError
  | Some oid =>
      match coll !! oid with
      | None => Resolve (None, coll)
      | Some doc => Resolve (Some (oid, update doc), <[oid := update doc]> coll)
      end
  end.

(** [Model.findByIdAndDelete(id)]. *)
Definition findByIdAndDelete (coll : gmap string Doc) (id : string)
    : Query (gmap string Doc) :=
  match castObjectId id with
  | None => CastError
  | Some oid => Resolve (delete oid coll)
  end.

End Collection.

(** [doc.save()] for a document fetched from the collection: the
    collection afterwards. *)
Definition save {Doc : Type} (coll : gmap string Doc) (doc : string * Doc)
    : gmap string Doc :=
  <[doc.1 := doc.2]> coll.

End Mongoose.

(* ===================================================================== *)
(** * Joi validation                                                       *)
(* ===================================================================== *)

(** Model of [Joi.object({ k: Joi.string()... }).validate(body)] with Joi's
    defaults: every key is optional, a key outside the schema is an error,
    a string must be non-empty, [min] and [max] bound its [.length]
    (UTF-16 code units), and the first error ends the validation. *)
Module Joi.
Import Js.

(** The error of [error.details[0]]; its [message] names the key. *)
Inductive ValidationError : Type :=
| ObjectUnknown (key : string)
| StringBase (key : string)
| StringEmpty (key : string)
| StringMin (key : string) (limit : nat)
| StringMax (key : string) (limit : nat).

(** [Joi.string()], with [.min(n)] and [.max(n)] where given. *)
Record StringSchema := {
  min : option nat;
  max : option nat
}.

Definition validateString (key : string) (schema : StringSchema) (value : JVal)
    : option ValidationError :=
  match value with
  | JStr s =>
      if String.eqb s "" then Some (StringEmpty key)
      else
        match min schema with
        | Some n =>
            if (utf16_length s <? n)%nat then Some (StringMin key n)
            else
              match max schema with
              | Some m => if (m <? utf16_length s)%nat then Some (StringMax key m) else None
              | None => None
              end
        | None =>
            match max schema with
            | Some m => if (m <? utf16_length s)%nat then Some (StringMax key m) else None
            | None => None
            end
        end
  | _ => Some (StringBase key)
  end.

(** The keys of the schema, in order, then the keys outside it. (Which
    of several keys outside the schema is reported depends on the order of
    the keys in the object; the map's order stands for it.) *)
Fixpoint validateKeys (schema : list (string * StringSchema)) (value : gmap string JVal)
    : option ValidationError :=
  match schema with
  | [] => None
  | (key, child) :: rest =>
      match value !! key with
      | Some v =>
          match validateString key child v with
          | Some err => Some err
          | None => validateKeys rest value
          end
      | None => validateKeys rest value
      end
  end.

Definition validate (schema : list (string * StringSchema)) (value : gmap string JVal)
    : option ValidationError :=
  match validateKeys schema value with
  | Some err => Some err
  | None =>
      match List.filter (λ key, negb (bool_decide (key ∈ schema.*1)))
                        (map_to_list value).*1 with
      | [] => None
      | key :: _ => Some (ObjectUnknown key)
      end
  end.

End Joi.

(* ===================================================================== *)
(** * The request context and the responses                               *)
(* ===================================================================== *)

Module Http.
Import Js.

(** Modelled from the spec: [req.user] is attached by the authentication
    gate ([middleware/auth.js], not available); it holds the
    decoded [userId], [role] and [email] of the verified token. *)
Record AttachedUser := {
  userId : option JVal;
  role : option JVal;
  email : option JVal
}.

(** A request that has passed the authentication gate: the attached
    identity, the [:id] of the path and the parsed JSON object of the
    body. *)
Record Request := {
  user : AttachedUser;
  params_id : string;
  body : gmap string JVal
}.

Inductive Message : Type :=
| Text (text : string)
| Detail (error : Joi.ValidationError).

(** [res.status(status).json({ success, message, ...payload })]. *)
Record Response (Payload : Type) := {
  status : Z;
  success : bool;
  message : option Message;
  payload : option Payload
}.
Arguments status {Payload} _.
Arguments success {Payload} _.
Arguments message {Payload} _.
Arguments payload {Payload} _.

(** [res.status(code).json({ success: false, message: text })]. *)
Definition failure {Payload : Type} (code : Z) (text : string) : Response Payload :=
  {| status := code; success := false; message := Some (Text text); payload := None |}.

(** The [catch] of every handler. *)
Definition serverError {Payload : Type} : Response Payload :=
  failure 500 "Server error".

(** What a route answers: a gate in front of the handler rejected the
    request with a status, or the handler responded. *)
Inductive Outcome (Payload : Type) : Type :=
| Rejected (code : Z)
| Handled (response : Response Payload).
Arguments Rejected {Payload} code.
Arguments Handled {Payload} response.

(** Modelled from the spec: the role gate ([middleware/admin.js]) is not
    available. It inspects the attached role and, if it is not
    [admin], rejects with 403; otherwise the next stage runs. *)
Definition admin {Payload : Type} {State : Type} (req : Request)
    (next : State → Response Payload * State) (st : State)
    : Outcome Payload * State :=
  if bool_decide (role (user req) = Some (JStr "admin"))
  then let '(response, st') := next st in (Handled response, st')
  else (Rejected 403, st).

End Http.

(* ===================================================================== *)
(** * routes/users.js                                                      *)
(* ===================================================================== *)

Module UsersRoute.
Import Js Http.
Import Mongoose.

Definition updateUserSchema : list (string * Joi.StringSchema) :=
  [ ("firstName", {| Joi.min := None; Joi.max := Some 50%nat |});
    ("lastName", {| Joi.min := None; Joi.max := Some 50%nat |});
    ("username", {| Joi.min := Some 3%nat; Joi.max := Some 30%nat |}) ].

(** A user document without its password ([.select('-password')]). *)
Record UserView := {
  v_id : string;
  v_username : string;
  v_email : string;
  v_firstName : string;
  v_lastName : string;
  v_role : string;
  v_isActive : bool;
  v_createdAt : Z;
  v_updatedAt : Z
}.

Definition selectWithoutPassword (id : string) (u : User) : UserView :=
  {| v_id := id; v_username := username u; v_email := Mongoose.email u;
     v_firstName := firstName u; v_lastName := lastName u;
     v_role := Mongoose.role u; v_isActive := isActive u;
     v_createdAt := createdAt u; v_updatedAt := updatedAt u |}.

(** The payloads of the users routes: [user] of the update, and the
    [{ id, username, email, isActive }] of the status toggle. *)
Inductive Payload : Type :=
| UserDoc (user : UserView)
| UserStatus (id username email : string) (isActive : bool).

(** One path of an update document: a key that is [undefined] is left
    out of the update (Mongoose 6 and later), a string is stored. *)
Definition setPath (value : option JVal) (old : string) : string :=
  match value with
  | Some (JStr s) => s
  | _ => old
  end.

(** The update [{ firstName, lastName, username, updatedAt }]. *)
Definition userUpdate (firstName' lastName' username' : option JVal)
    (updatedAt' : Z) (u : User) : User :=
  {| username := setPath username' (username u);
     email := Mongoose.email u;
     password := password u;
     firstName := setPath firstName' (firstName u);
     lastName := setPath lastName' (lastName u);
     role := Mongoose.role u;
     isActive := isActive u;
     createdAt := createdAt u;
     updatedAt := updatedAt' |}.

Definition withUsers (st : Store) (users' : gmap string User) : Store :=
  {| users := users'; products := products st |}.

Definition hasUsername (name : option JVal) (u : User) : bool :=
  bool_decide (name = Some (JStr (username u))).

(** [user.isActive = !user.isActive]. *)
Definition toggled (u : User) : User :=
  {| username := username u; email := Mongoose.email u; password := password u;
     firstName := firstName u; lastName := lastName u; role := Mongoose.role u;
     isActive := negb (isActive u);
     createdAt := createdAt u; updatedAt := updatedAt u |}.

Section Handlers.
Variable castObjectId : string → option string.
(** [Date.now()] when the handler runs. *)
Variable now : Z.

(** [router.put('/:id', auth, ...)]: the handler. The validators of the
    User schema that [runValidators] runs are taken to accept what
    [updateUserSchema] accepts. *)
Definition put_id (req : Request) (st : Store) : Response Payload * Store :=
  match Joi.validate updateUserSchema (body req) with
  | Some error =>
      ({| status := 400; success := false; message := Some (Detail error);
          payload := None |}, st)
  | None =>
      if bool_decide (userId (user req) ≠ Some (JStr (params_id req)))
         && bool_decide (Http.role (user req) ≠ Some (JStr "admin"))
      then (failure 403 "Access denied", st)
      else
        let firstName' := body req !! "firstName" in
        let lastName' := body req !! "lastName" in
        let username' := body req !! "username" in
        match (if truthy_opt username'
               then findOne_ne castObjectId (users st) (hasUsername username')
                               (params_id req)
               else Resolve None) with
        | CastError => (serverError, st)
        | Resolve (Some existingUser) => (failure 400 "Username already taken", st)
        | Resolve None =>
            match findByIdAndUpdate castObjectId (users st) (params_id req)
                    (userUpdate firstName' lastName' username' now) with
            | CastError => (serverError, st)
            | Resolve (None, _) => (failure 404 "User not found", st)
            | Resolve (Some (oid, user'), users') =>
                ({| status := 200; success := true;
                    message := Some (Text "User updated successfully");
                    payload := Some (UserDoc (selectWithoutPassword oid user')) |},
                 withUsers st users')
            end
        end
  end.

(** [router.delete('/:id', [auth, admin], ...)]: the handler. *)
Definition delete_id_handler (req : Request) (st : Store) : Response Payload * Store :=
  match findById castObjectId (users st) (params_id req) with
  | CastError => (serverError, st)
  | Resolve None => (failure 404 "User not found", st)
  | Resolve (Some user') =>
      if bool_decide (userId (user req) = Some (JStr (params_id req)))
      then (failure 400 "Cannot delete your own account", st)
      else
        match findByIdAndDelete castObjectId (users st) (params_id req) with
        | CastError => (serverError, st)
        | Resolve users' =>
            ({| status := 200; success := true;
                message := Some (Text "User deleted successfully");
                payload := None |},
             withUsers st users')
        end
  end.

(** [router.put('/:id/toggle-status', [auth, admin], ...)]: the
    handler. *)
Definition toggle_status_handler (req : Request) (st : Store)
    : Response Payload * Store :=
  match findById castObjectId (users st) (params_id req) with
  | CastError => (serverError, st)
  | Resolve None => (failure 404 "User not found", st)
  | Resolve (Some (oid, user0)) =>
      if bool_decide (userId (user req) = Some (JStr (params_id req)))
      then (failure 400 "Cannot change your own status", st)
      else
        let user' := toggled user0 in
        ({| status := 200; success := true;
            message :=
              Some (Text ("User " +:+
                          (if isActive user' then "activated" else "deactivated")
                          +:+ " successfully"));
            payload := Some (UserStatus oid (username user')
                                        (Mongoose.email user') (isActive user')) |},
         withUsers st (save (users st) (oid, user')))
  end.

(** The two admin-only routes, behind the role gate. *)
Definition delete_id (req : Request) (st : Store) : Outcome Payload * Store :=
  admin req (delete_id_handler req) st.

Definition toggle_status (req : Request) (st : Store) : Outcome Payload * Store :=
  admin req (toggle_status_handler req) st.
End Handlers.

Section Reads.
Variable castObjectId : string → option string.

(** [router.get('/:id', auth, ...)]: the handler. The user is looked up
    first, the ownership check comes second. *)
Definition get_id (req : Request) (st : Store) : Response Payload :=
  match findById castObjectId (users st) (params_id req) with
  | CastError => serverError
  | Resolve None => failure 404 "User not found"
  | Resolve (Some (oid, user')) =>
      if bool_decide (userId (user req) ≠ Some (JStr (params_id req)))
         && bool_decide (Http.role (user req) ≠ Some (JStr "admin"))
      then failure 403 "Access denied"
      else {| status := 200; success := true; message := None;
              payload := Some (UserDoc (selectWithoutPassword oid user')) |}
  end.
End Reads.

End UsersRoute.

(* ===================================================================== *)
(** * routes/products.js                                                   *)
(* ===================================================================== *)

Module ProductsRoute.
Import Js Http.
Import Mongoose.

(** A product with [createdBy] populated with the creator's
    [username firstName lastName] ([None] for [null], when the user no
    longer exists). *)
Record Populated := {
  doc_id : string;
  doc : Product;
  createdBy : option (string * string * string * string)
}.

Definition populate (st : Store) (id : string) (p : Product) : Populated :=
  {| doc_id := id; doc := p;
     createdBy :=
       (λ u, (p_createdBy p, username u, firstName u, lastName u))
         <$> users st !! p_createdBy p |}.

(** The update [{ isActive: false, updatedAt: Date.now() }]. *)
Definition softDelete (updatedAt' : Z) (p : Product) : Product :=
  {| p_name := p_name p; p_description := p_description p; p_price := p_price p;
     p_category := p_category p; p_stock := p_stock p; p_images := p_images p;
     p_specifications := p_specifications p; p_tags := p_tags p;
     p_isActive := false;
     p_createdBy := p_createdBy p; p_createdAt := p_createdAt p;
     p_updatedAt := updatedAt' |}.

Definition withProducts (st : Store) (products' : gmap string Product) : Store :=
  {| users := users st; products := products' |}.

Section Handlers.
Variable castObjectId : string → option string.
Variable now : Z.

(** [router.get('/:id', ...)], a public route: only the [:id] of the
    request is read. *)
Definition get_id (id : string) (st : Store) : Response Populated :=
  match findById castObjectId (products st) id with
  | CastError => serverError
  | Resolve None => failure 404 "Product not found"
  | Resolve (Some (oid, product)) =>
      if negb (p_isActive product)
      then failure 404 "Product not found"
      else {| status := 200; success := true; message := None;
              payload := Some (populate st oid product) |}
  end.

(** [router.delete('/:id', [auth, admin], ...)]: the handler. *)
Definition delete_id_handler (req : Request) (st : Store)
    : Response Populated * Store :=
  match findByIdAndUpdate castObjectId (products st) (params_id req)
          (softDelete now) with
  | CastError => (serverError, st)
  | Resolve (None, _) => (failure 404 "Product not found", st)
  | Resolve (Some product, products') =>
      ({| status := 200; success := true;
          message := Some (Text "Product deleted successfully");
          payload := None |},
       withProducts st products')
  end.

Definition delete_id (req : Request) (st : Store) : Outcome Populated * Store :=
  admin req (delete_id_handler req) st.
End Handlers.

End ProductsRoute.

(* ===================================================================== *)
(** * test-jwt.js                                                          *)
(* ===================================================================== *)

Module TestJwt.
Import Js Jsonwebtoken JwtUtils.

(** What is printed after the text of a line. *)
Inductive Value : Type :=
| Nothing
| TokenValue (token : Token)
| Decoded (payload : gmap string JVal)
| Boolean (b : bool)
| ErrorMessage (message : string).

(** The lines of the script's output; [Uncaught] is an exception that
    nothing catches, which ends the script. *)
Inductive Line : Type :=
| ConsoleLog (text : string) (value : Value)
| ConsoleError (text : string) (value : Value)
| Uncaught (e : string * string).

Definition testUserId : string := "507f1f77bcf86cd799439011".

Definition newline : string := String "010"%char "".

Section Script.
Variable string_lt_number : string → Z → bool.
(** [process.env] after [require('dotenv').config()]. *)
Variable env : gmap string string.
(** The clock, in seconds, at the calls that read it: the two token
    generations, the two verifications and the two expiry checks, in the
    order of the script. *)
Variable clock : nat → Z.

(** Step 2: both verifications in one [try]. *)
Definition verifying (token refreshToken : Token) : list Line :=
  match verifyToken env (clock 2) token with
  | Throw e => [ConsoleError "Token verification failed:" (ErrorMessage e.2)]
  | Ok decodedToken =>
      ConsoleLog "Access Token Decoded:" (Decoded decodedToken) ::
      match verifyToken env (clock 3) refreshToken with
      | Throw e => [ConsoleError "Token verification failed:" (ErrorMessage e.2)]
      | Ok decodedRefreshToken =>
          [ConsoleLog "Refresh Token Decoded:" (Decoded decodedRefreshToken)]
      end
  end.

(** Step 4: the invalid token, in a [try] of its own. *)
Definition invalidToken : list Line :=
  match verifyToken env (clock 6) (Malformed "invalid.token.here") with
  | Throw e => [ConsoleLog "Invalid token correctly rejected:" (ErrorMessage e.2)]
  | Ok _ => []
  end.

(** The script; the token generations are outside any [try]. *)
Definition run : list Line :=
  ConsoleLog ("Testing JWT functionality..." +:+ newline) Nothing ::
  ConsoleLog "1. Generating tokens..." Nothing ::
  match generateToken env (clock 0) testUserId
          {| role := Some (JStr "user"); email := Some (JStr "test@example.com");
             expiresIn := None |} with
  | Throw e => [Uncaught e]
  | Ok token =>
      match generateRefreshToken env (clock 1) testUserId with
      | Throw e => [Uncaught e]
      | Ok refreshToken =>
          [ ConsoleLog "Access Token:" (TokenValue token);
            ConsoleLog "Refresh Token:" (TokenValue refreshToken);
            ConsoleLog "" Nothing;
            ConsoleLog "2. Verifying tokens..." Nothing ]
          ++ verifying token refreshToken
          ++ [ ConsoleLog "" Nothing;
               ConsoleLog "3. Checking token expiration..." Nothing;
               ConsoleLog "Access Token Expired:"
                 (Boolean (isTokenExpired string_lt_number token (clock 4)));
               ConsoleLog "Refresh Token Expired:"
                 (Boolean (isTokenExpired string_lt_number refreshToken (clock 5)));
               ConsoleLog "" Nothing;
               ConsoleLog "4. Testing invalid token..." Nothing ]
          ++ invalidToken
          ++ [ ConsoleLog (newline +:+ "JWT functionality test completed!") Nothing ]
      end
  end.
End Script.

End TestJwt.

(* ===================================================================== *)
(** * Vocabulary of the properties, and sample data                       *)
(* ===================================================================== *)

Import Js Jsonwebtoken JwtUtils Start Http Mongoose.

(** The claims that [sign] adds are those of the options, on top of the
    payload it is given. *)
Definition signedPayload (payload : gmap string JVal) (iat exp : Z)
    (options : SignOptions) : gmap string JVal :=
  <["iss" := JStr (so_issuer options)]>
    (<["aud" := JStr (so_audience options)]>
       (<["exp" := JNum exp]> (<["iat" := JNum iat]> payload))).

Definition sampleEnv : gmap string string :=
  {[ "JWT_SECRET" := "s3cret"; "MONGODB_URI" := "mongodb://db/app" ]}.

Definition zeroSeconds : TokenOptions :=
  {| JwtUtils.role := None; JwtUtils.email := None; expiresIn := Some (JStr "0s") |}.

(** An expiry that is not a whole number of seconds: 17.4 * 60000 is
    the double just below 1044000. *)
Definition fractionalMinutes : TokenOptions :=
  {| JwtUtils.role := None; JwtUtils.email := None;
     expiresIn := Some (JStr "17.4m") |}.

(** A user name of two letters, of four bytes in UTF-8; one of 26
    letters, of 52 bytes; one of three code units, the last two a
    surrogate pair. *)
Definition twoLetters : string := "éé".

Definition twentySixLetters : string := "éééééééééééééééééééééééééé".

Definition letterAndPair : string := "a😀".

(** The ownership rule: the requester is the user [:id] or an admin. *)
Definition authorized (req : Request) : Prop :=
  userId (user req) = Some (JStr (params_id req))
  ∨ Http.role (user req) = Some (JStr "admin").

(** Another user than [oid] holds the user name [name]. *)
Definition usernameHeldByOther (users : gmap string User) (oid : string)
    (name : option JVal) : Prop :=
  ∃ k u, users !! k = Some u ∧ k ≠ oid ∧ name = Some (JStr (username u)).

(** The update of [PUT /users/:id] is performed: the stored record is
    replaced by its update and the response is the success response. *)
Definition updatePerformed (castObjectId : string → option string) (now : Z)
    (req : Request) (st : Store) : Prop :=
  ∃ oid u,
    castObjectId (params_id req) = Some oid
    ∧ users st !! oid = Some u
    ∧ let u' := UsersRoute.userUpdate (body req !! "firstName") (body req !! "lastName")
                  (body req !! "username") now u in
      UsersRoute.put_id castObjectId now req st
      = ({| status := 200; success := true;
            message := Some (Text "User updated successfully");
            payload := Some (UsersRoute.UserDoc (UsersRoute.selectWithoutPassword oid u')) |},
         UsersRoute.withUsers st (<[oid := u']> (users st))).

(** Sample data: three users and a product. *)
Definition aliceId : string := "507f1f77bcf86cd799439011".

Definition bobId : string := "507f1f77bcf86cd799439012".

Definition rootId : string := "507f1f77bcf86cd799439013".

Definition laptopId : string := "64b7f1f77bcf86cd79943a01".

Definition bookId : string := "64b7f1f77bcf86cd79943a02".

Definition sampleUser (name mail role' : string) : User :=
  {| username := name; email := mail; password := "$2a$12$LQv3c1yqBWVHxkd0LHAkCO";
     firstName := name; lastName := "User"; role := role'; isActive := true;
     createdAt := 1700000000000; updatedAt := 1700000000000 |}.

Definition sampleProduct (name : string) (active : bool) : Product :=
  {| p_name := name; p_description := "High-performance laptop for development";
     p_price := 129999 # 100; p_category := "electronics"; p_stock := 10;
     p_images := [("https://via.placeholder.com/400x300", name)];
     p_specifications := {[ "RAM" := "16GB" ]}; p_tags := ["laptop"; "computer"];
     p_isActive := active; p_createdBy := rootId;
     p_createdAt := 1700000000000; p_updatedAt := 1700000000000 |}.

Definition sampleStore : Store :=
  {| users := {[ aliceId := sampleUser "alice" "alice@example.com" "user";
                 bobId := sampleUser "bob" "bob@example.com" "user";
                 rootId := sampleUser "admin" "admin@example.com" "admin" ]};
     products := {[ laptopId := sampleProduct "Sample Laptop" true;
                    bookId := sampleProduct "Programming Book" false ]} |}.

Definition asUser (id role' : string) : AttachedUser :=
  {| userId := Some (JStr id); Http.role := Some (JStr role');
     Http.email := None |}.

(** Alice asks for Bob's user name on her own record. *)
Definition aliceTakesBob : Request :=
  {| user := asUser aliceId "user"; params_id := aliceId;
     body := {[ "username" := JStr "bob" ]} |}.


(** An admin gives Bob a new user name. *)
Definition rootRenamesBob : Request :=
  {| user := asUser rootId "admin"; params_id := bobId;
     body := {[ "username" := JStr "robert" ]} |}.

Definition rootOnSelf : Request :=
  {| user := asUser rootId "admin"; params_id := rootId; body := ∅ |}.

(** The admin addressing their own record, its id written with capital
    hexadecimal digits. *)
Definition rootOnSelfCapitals : Request :=
  {| user := asUser rootId "admin";
     params_id := "507F1F77BCF86CD799439013"; body := ∅ |}.

Definition rootDeletesLaptop : Request :=
  {| user := asUser rootId "admin"; params_id := laptopId; body := ∅ |}.

(** What [updateUserSchema] accepts: no key but the three, each of them
    missing or a non-empty string within its length bounds. *)
Definition validUpdateBody (body : gmap string JVal) : Prop :=
  (∀ key, is_Some (body !! key) → key ∈ ["firstName"; "lastName"; "username"])
  ∧ (∀ v, body !! "firstName" = Some v →
       ∃ s, v = JStr s ∧ s ≠ "" ∧ (utf16_length s ≤ 50)%nat)
  ∧ (∀ v, body !! "lastName" = Some v →
       ∃ s, v = JStr s ∧ s ≠ "" ∧ (utf16_length s ≤ 50)%nat)
  ∧ (∀ v, body !! "username" = Some v →
       ∃ s, v = JStr s ∧ (3 ≤ utf16_length s ≤ 30)%nat).

(** No two stored users have the same user name. *)
Definition uniqueUsernames (users : gmap string User) : Prop :=
  ∀ k1 k2 u1 u2,
    users !! k1 = Some u1 → users !! k2 = Some u2 →
    username u1 = username u2 → k1 = k2.

(** The options of the script [test-jwt.js]. *)
Definition testOptions : TokenOptions :=
  {| JwtUtils.role := Some (JStr "user");
     JwtUtils.email := Some (JStr "test@example.com"); expiresIn := None |}.

(** An admin tries to set Bob's role through the update route. *)
Definition rootPromotesBob : Request :=
  {| user := asUser rootId "admin"; params_id := bobId;
     body := {[ "role" := JStr "admin" ]} |}.

(** Bob sends his current user name along with a new last name. *)
Definition bobKeepsName : Request :=
  {| user := asUser bobId "user"; params_id := bobId;
     body := {[ "username" := JStr "bob"; "lastName" := JStr "Builder" ]} |}.

(** An admin addresses Bob's record. *)
Definition rootOnBob : Request :=
  {| user := asUser rootId "admin"; params_id := bobId; body := ∅ |}.

(** Alice, as an admin, deletes the creator of the sample products. *)
Definition aliceDeletesRoot : Request :=
  {| user := asUser aliceId "admin"; params_id := rootId; body := ∅ |}.

(* ===================================================================== *)
(** * Properties                                                           *)
(* ===================================================================== *)

(** ** String splitting *)

Section Split.
Variable sep : ascii.

Lemma split_nonempty (s : string) : split sep s ≠ [].
Proof.
  destruct s as [|c rest]; simpl; [done|].
  destruct (Ascii.eqb c sep); [done|].
  by destruct (split sep rest).
Qed.

Lemma split_singleton (s b : string) :
  split sep s = [b] → s = b ∧ sep ∉ chars b.
Proof.
  revert b. induction s as [|c rest IH]; intros b; simpl.
  - intros [= <-]. split; [done|]. simpl. apply not_elem_of_nil.
  - destruct (Ascii.eqb_spec c sep) as [->|Hne].
    + intros [= _ Hrest]. by destruct (split_nonempty rest).
    + destruct (split sep rest) as [|seg segs] eqn:Hsplit.
      { by destruct (split_nonempty rest). }
      intros [= <- ->].
      destruct (IH seg eq_refl) as [-> Hseg].
      split; [done|]. simpl. rewrite not_elem_of_cons. done.
Qed.

Lemma split_pair (s a b : string) :
  split sep s = [a; b] → s = a +:+ String sep b ∧ (sep ∉ chars a) ∧ (sep ∉ chars b).
Proof.
  revert a. induction s as [|c rest IH]; intros a; simpl; [done|].
  destruct (Ascii.eqb_spec c sep) as [->|Hne].
  - intros [= <- Hrest]. apply split_singleton in Hrest as [-> Hb].
    split; [done|]. split; [|done]. simpl. apply not_elem_of_nil.
  - destruct (split sep rest) as [|seg segs] eqn:Hsplit; [done|].
    intros [= <- ->].
    destruct (IH seg eq_refl) as (-> & Hseg & Hb).
    split; [done|]. split; [|done]. simpl. rewrite not_elem_of_cons. done.
Qed.

Lemma split_no_sep (s : string) : sep ∉ chars s → split sep s = [s].
Proof.
  induction s as [|c rest IH]; simpl; [done|].
  rewrite not_elem_of_cons. intros [Hne Hrest].
  destruct (Ascii.eqb_spec c sep) as [->|_]; [done|].
  by rewrite (IH Hrest).
Qed.
End Split.

(** ** The bearer scheme *)

(** C4. [extractTokenFromHeader] returns a token exactly when the header
    is present and consists of the segment [Bearer], one space, and a
    second segment without a space, which is the token returned. For every
    other value of the header (missing, empty, another scheme, one segment
    or more than two) the result is [null]. *)
Theorem extractTokenFromHeader_exact_form (authHeader : option string) (token : string) :
  JwtUtils.extractTokenFromHeader authHeader = Some token
  ↔ authHeader = Some ("Bearer " +:+ token) ∧ " "%char ∉ chars token.
Proof.
  unfold JwtUtils.extractTokenFromHeader. split.
  - destruct authHeader as [h|]; [|done].
    destruct (String.eqb h ""); [done|].
    destruct (split " " h) as [|p0 [|p1 [|p2 parts]]] eqn:Hsplit; simpl;
      try done.
    case_bool_decide as Hp0; simpl; [done|].
    intros [= ->].
    injection Hp0 as ->.
    apply split_pair in Hsplit as (-> & _ & Htok). done.
  - intros [-> Htok]. simpl.
    change ("" +:+ token) with token.
    by rewrite (split_no_sep _ _ Htok).
Qed.

Example extractTokenFromHeader_shapes :
  JwtUtils.extractTokenFromHeader (Some "Bearer abc.def.ghi") = Some "abc.def.ghi"
  ∧ JwtUtils.extractTokenFromHeader (Some "Bearer abc def") = None
  ∧ JwtUtils.extractTokenFromHeader (Some "Basic abc") = None
  ∧ JwtUtils.extractTokenFromHeader None = None.
Proof. repeat split; reflexivity. Qed.

(** ** The models of [ms] and [jsonwebtoken] at work *)

Example ms_units :
  timespan (JStr "7d") 0 = Some 604800
  ∧ timespan (JStr "30d") 0 = Some 2592000
  ∧ timespan (JStr "1.5h") 0 = Some 5400
  ∧ timespan (JStr "2 Days") 0 = Some 172800
  ∧ timespan (JStr "1500") 0 = Some 1
  ∧ timespan (JStr "0s") 0 = Some 0
  ∧ timespan (JStr "1.") 0 = None
  ∧ timespan (JStr "soon") 0 = None
  ∧ timespan (JNum 60) 100 = Some 160
  ∧ timespan (JBool true) 0 = None.
Proof. repeat split; vm_compute; reflexivity. Qed.

(** Timespans that are not whole seconds: the product, the quotient and
    the sum are each rounded to a double before the floor is taken. *)
Example timespan_fractional :
  timespan (JStr "17.4m") 1000 = Some 2043
  ∧ timespan (JStr "59.99999999s") 1700000000 = Some 1700000060
  ∧ timespan (JStr "0.99999999s") 1700000000 = Some 1700000001
  ∧ timespan (JStr "0.1s") 0 = Some 0
  ∧ timespan (JStr "-0.5s") 10 = Some 9
  ∧ timespan (JStr "1.1y") 1700000000 = Some 1734713360
  ∧ timespan (JStr "2.5w") 1700000000 = Some 1701512000.
Proof. repeat split; vm_compute; reflexivity. Qed.

(** A token issued at second 1000 for 17.4 minutes expires at second
    2043: it is accepted at 2042 and rejected from 2043 on. *)
Example verifyToken_fractional_expiry :
  ∃ token decoded,
    generateToken sampleEnv 1000 "u1" fractionalMinutes = Ok token
    ∧ decode token = Some decoded
    ∧ decoded !! "exp" = Some (JNum 2043)
    ∧ verifyToken sampleEnv 2042 token = Ok decoded
    ∧ verifyToken sampleEnv 2043 token = Throw TokenExpiredError.
Proof.
  eexists _, _. split; [vm_compute; reflexivity|].
  split; [reflexivity|]. repeat split; vm_compute; reflexivity.
Qed.

(** A token signed under another secret, a token whose payload was
    altered, and an unsigned token are rejected; without [JWT_SECRET]
    nothing is issued. *)
Example verify_rejects :
  let other : gmap string string := <["JWT_SECRET" := "other"]> sampleEnv in
  (∃ token, generateToken other 1000 "u1" noOptions = Ok token
     ∧ verifyToken sampleEnv 1000 token
       = Throw (JsonWebTokenError "invalid signature"))
  ∧ verifyToken sampleEnv 1000
      (Jws "HS256" {[ "userId" := JStr "u1" ]} (SigOther "AAAA"))
    = Throw (JsonWebTokenError "invalid signature")
  ∧ verifyToken sampleEnv 1000 (Jws "none" {[ "userId" := JStr "u1" ]} SigEmpty)
    = Throw (JsonWebTokenError "jwt signature is required")
  ∧ verifyToken sampleEnv 1000 (Malformed "invalid.token.here")
    = Throw (JsonWebTokenError "invalid token")
  ∧ generateToken ∅ 1000 "u1" noOptions
    = Throw (Error "secretOrPrivateKey must have a value").
Proof.
  simpl. split; [eexists; split; vm_compute; reflexivity|].
  repeat split; vm_compute; reflexivity.
Qed.

(** ** Tokens *)

(** Every integer below [2 ^ 53] in absolute value is a double. *)
Lemma round_pos_integer (n : Z) :
  0 < n < 2 ^ 53 → (Double.round_pos n 1 == inject_Z n)%Q.
Proof.
  intros [Hpos Hlt]. unfold Double.round_pos.
  change (Z.log2 (Z.pos 1)) with 0. rewrite Z.sub_0_r.
  pose proof (Z.log2_nonneg n) as Hnonneg.
  assert (Z.log2 n < 53) as Hlog by (apply Z.log2_lt_pow2; lia).
  destruct (Z.log2_spec n Hpos) as [Hlow _].
  assert ((0 <=? Z.log2 n) = true) as -> by lia.
  assert ((n <? 1 * 2 ^ Z.log2 n) = false) as -> by lia.
  assert ((0 <=? 52 - Z.log2 n) = true) as -> by lia.
  cbv zeta.
  rewrite Z.div_1_r, Z.mod_1_r.
  change (1 <? 2 * 0) with false. change (1 =? 2 * 0) with false.
  cbn [andb].
  set (shift := 52 - Z.log2 n).
  assert (0 < 2 ^ shift) by (apply Z.pow_pos_nonneg; lia).
  rewrite Qred_correct. unfold Double.pow2.
  destruct (Z.leb_spec 0 (- shift)).
  - assert (shift = 0) as -> by lia. simpl. unfold Qeq. simpl. lia.
  - rewrite Z.opp_involutive. unfold Qeq, Qmult, inject_Z.
    cbn [Qnum Qden]. rewrite Pos.mul_1_l, Z2Pos.id by lia. lia.
Qed.

Lemma round_integer (z : Z) :
  Z.abs z < 2 ^ 53 → (Double.round (inject_Z z) == inject_Z z)%Q.
Proof.
  intros Hz. unfold Double.round. simpl.
  destruct z as [|n|n]; [done|..].
  - apply round_pos_integer. lia.
  - rewrite round_pos_integer by lia. done.
Qed.

Lemma timespan_valid (time : JVal) (iat exp : Z) :
  timespan time iat = Some exp →
  match time with
  | JNum _ => true
  | JStr t => negb (String.eqb t "")
  | _ => false
  end = true.
Proof.
  destruct time as [| |n|t]; simpl; try done.
  destruct t; [|done]. vm_compute. done.
Qed.

Lemma sign_ok (now : Z) (payload : gmap string JVal) (key : string)
    (options : SignOptions) (exp : Z) :
  key ≠ "" →
  (∀ k, k ∈ ["iat"; "exp"; "nbf"; "aud"; "iss"] → payload !! k = None) →
  timespan (so_expiresIn options) now = Some exp →
  sign now payload (Some key) options
  = Ok (Jws "HS256" (signedPayload payload now exp options) (SigHmac key)).
Proof.
  intros Hkey Hfree Hexp. unfold sign, number_claim_ok, timestamp_of.
  assert (env_truthy (Some key) = true) as ->.
  { simpl. by destruct (String.eqb_spec key ""). }
  rewrite !Hfree by (repeat constructor). simpl.
  rewrite (timespan_valid _ _ _ Hexp). simpl. rewrite Hexp.
  rewrite bool_decide_eq_false_2.
  2: { rewrite !lookup_insert_ne by done. rewrite Hfree by (repeat constructor).
       by intros [??]. }
  rewrite bool_decide_eq_false_2.
  2: { rewrite !lookup_insert_ne by done. rewrite Hfree by (repeat constructor).
       by intros [??]. }
  done.
Qed.

(** Whatever [sign] returns is signed with the given key, HS256, and
    carries the claims of the options on top of the payload. *)
Lemma sign_inv (now : Z) (payload : gmap string JVal) (secret : option string)
    (options : SignOptions) (token : Token) :
  sign now payload secret options = Ok token →
  ∃ key exp,
    secret = Some key ∧ key ≠ ""
    ∧ timespan (so_expiresIn options) (timestamp_of payload now) = Some exp
    ∧ token = Jws "HS256"
                (signedPayload payload (timestamp_of payload now) exp options)
                (SigHmac key).
Proof.
  unfold sign.
  destruct secret as [key|]; [|done].
  destruct (env_truthy (Some key)) eqn:Hkey; [|done]. simpl.
  repeat match goal with
         | |- (if ?c then _ else _) = _ → _ => destruct c; [done|]
         end.
  destruct (timespan _ _) as [exp|]; [|done].
  repeat match goal with
         | |- (if ?c then _ else _) = _ → _ => destruct c; [done|]
         end.
  intros [= <-]. exists key, exp. split; [done|]. split; [|done].
  intros ->. done.
Qed.

Lemma verify_ok (now : Z) (payload : gmap string JVal) (key : string)
    (options : VerifyOptions) (exp : Z) :
  key ≠ "" →
  payload !! "nbf" = None →
  payload !! "exp" = Some (JNum exp) →
  payload !! "aud" = Some (JStr (vo_audience options)) →
  payload !! "iss" = Some (JStr (vo_issuer options)) →
  now < exp →
  verify now (Jws "HS256" payload (SigHmac key)) (Some key) options = Ok payload.
Proof.
  intros Hkey Hnbf Hexp Haud Hiss Hlt. unfold verify, number_claim_ok.
  assert (env_truthy (Some key) = true) as ->.
  { simpl. by destruct (String.eqb_spec key ""). }
  rewrite Hnbf, Hexp. simpl.
  assert ((exp <=? now) = false) as -> by lia.
  rewrite !bool_decide_eq_true_2 by done. done.
Qed.

Lemma verify_expired (now : Z) (payload : gmap string JVal) (key : string)
    (options : VerifyOptions) (exp : Z) :
  key ≠ "" →
  payload !! "nbf" = None →
  payload !! "exp" = Some (JNum exp) →
  exp ≤ now →
  verify now (Jws "HS256" payload (SigHmac key)) (Some key) options
  = Throw TokenExpiredError.
Proof.
  intros Hkey Hnbf Hexp Hle. unfold verify, number_claim_ok.
  assert (env_truthy (Some key) = true) as ->.
  { simpl. by destruct (String.eqb_spec key ""). }
  rewrite Hnbf, Hexp. simpl.
  assert ((exp <=? now) = true) as -> by lia.
  by rewrite bool_decide_eq_true_2.
Qed.

Lemma accessPayload_lookup (userId : string) (options : TokenOptions) (k : string) :
  k ≠ "role" → k ≠ "email" →
  JwtUtils.accessPayload userId options !! k
  = ({[ "userId" := JStr userId ]} : gmap string JVal) !! k.
Proof.
  intros Hrole Hemail. unfold JwtUtils.accessPayload, JwtUtils.add_if_truthy.
  destruct (JwtUtils.email options) as [e|]; [destruct (truthy e)|];
    destruct (JwtUtils.role options) as [r|]; try destruct (truthy r);
    by rewrite ?lookup_insert_ne by done.
Qed.

Lemma signedPayload_lookup (payload : gmap string JVal) (iat exp : Z)
    (options : SignOptions) (k : string) :
  k ∉ ["iat"; "exp"; "aud"; "iss"] →
  signedPayload payload iat exp options !! k = payload !! k.
Proof.
  intros Hk. unfold signedPayload.
  rewrite !lookup_insert_ne; [done|..]; intros <-; apply Hk; repeat constructor.
Qed.

(** A timespan of a whole number [k] of seconds ends [k] seconds after
    the timestamp. *)
Lemma timespan_whole_seconds (t : string) (iat : Z) (milliseconds : Q) (k : Z) :
  Ms.parse t = Some milliseconds →
  Double.div milliseconds 1000 = inject_Z k →
  Z.abs k < 2 ^ 52 →
  timespan (JStr t) iat = Some (iat + k).
Proof.
  intros Hms Hdiv Hk. unfold timespan. rewrite Hms. cbv zeta. rewrite Hdiv.
  destruct (Z.leb_spec (Z.abs iat) (2 ^ 52)) as [Hiat|Hiat].
  - unfold Double.add.
    assert (inject_Z iat + inject_Z k = inject_Z (iat + k))%Q as ->.
    { unfold Qplus, inject_Z. cbn [Qnum Qden]. f_equal. lia. }
    rewrite (Qfloor_comp _ _ (round_integer (iat + k) ltac:(lia))).
    by rewrite Qfloor_Z.
  - by rewrite Qfloor_Z.
Qed.

Lemma timespan_7d (iat : Z) : timespan (JStr "7d") iat = Some (iat + 604800).
Proof.
  apply (timespan_whole_seconds _ _ (604800000 # 1));
    [vm_compute; reflexivity..|lia].
Qed.

Lemma timespan_30d (iat : Z) : timespan (JStr "30d") iat = Some (iat + 2592000).
Proof.
  apply (timespan_whole_seconds _ _ (2592000000 # 1));
    [vm_compute; reflexivity..|lia].
Qed.

Lemma accessPayload_free (userId : string) (options : TokenOptions) (k : string) :
  k ∈ ["iat"; "exp"; "nbf"; "aud"; "iss"] → accessPayload userId options !! k = None.
Proof.
  intros Hk. rewrite accessPayload_lookup.
  - apply lookup_singleton_ne. intros <-.
    repeat (apply elem_of_cons in Hk as [Hk|Hk]; [discriminate Hk|]).
    by apply elem_of_nil in Hk.
  - intros ->. repeat (apply elem_of_cons in Hk as [Hk|Hk]; [discriminate Hk|]).
    by apply elem_of_nil in Hk.
  - intros ->. repeat (apply elem_of_cons in Hk as [Hk|Hk]; [discriminate Hk|]).
    by apply elem_of_nil in Hk.
Qed.

(** What [generateToken] returns once the secret is configured and the
    expiry setting is a timespan: the payload with the four claims of
    [sign], under the configured key. *)
Lemma generateToken_ok (env : gmap string string) (now : Z) (userId : string)
    (options : TokenOptions) (key : string) (exp : Z) :
  env !! "JWT_SECRET" = Some key → key ≠ "" →
  timespan (so_expiresIn (tokenOptions env options)) now = Some exp →
  generateToken env now userId options
  = Ok (Jws "HS256"
          (signedPayload (accessPayload userId options) now exp (tokenOptions env options))
          (SigHmac key)).
Proof.
  intros Hsecret Hkey Hexp. unfold generateToken. rewrite Hsecret.
  apply sign_ok; [done| |done]. intros k Hk. by apply accessPayload_free.
Qed.

(** A token of [generateToken] verifies before its expiry, and its payload
    has the user id it was issued for. *)
Lemma verifyToken_signed (env : gmap string string) (now now' : Z)
    (userId : string) (options : TokenOptions) (key : string) (exp : Z) :
  env !! "JWT_SECRET" = Some key → key ≠ "" →
  now' < exp →
  let payload :=
    signedPayload (accessPayload userId options) now exp (tokenOptions env options) in
  verifyToken env now' (Jws "HS256" payload (SigHmac key)) = Ok payload
  ∧ payload !! "userId" = Some (JStr userId).
Proof.
  intros Hsecret Hkey Hlt payload. subst payload. split.
  - unfold verifyToken. rewrite Hsecret.
    apply (verify_ok _ _ _ _ exp); try done; unfold signedPayload.
    + rewrite !lookup_insert_ne by done. apply accessPayload_free. repeat constructor.
    + rewrite lookup_insert_ne by done. rewrite lookup_insert_ne by done.
      apply lookup_insert_eq.
    + rewrite lookup_insert_ne by done. apply lookup_insert_eq.
    + apply lookup_insert_eq.
  - rewrite signedPayload_lookup.
    + rewrite accessPayload_lookup by done. apply lookup_singleton_eq.
    + intros Hk. repeat (apply elem_of_cons in Hk as [Hk|Hk]; [discriminate Hk|]).
      by apply elem_of_nil in Hk.
Qed.

(** C1. With the secret configured and the expiry setting a timespan
    that puts the expiry at [exp], the access token issued for [userId] at
    [now] verifies at every time [now'] before [exp], and the decoded
    claims carry [userId]. (No condition on [userId] is needed; the empty
    string round-trips as well.) *)
Theorem verifyToken_generateToken_roundtrip (env : gmap string string) (now now' : Z)
    (userId : string) (options : TokenOptions) (key : string) (exp : Z) :
  env !! "JWT_SECRET" = Some key → key ≠ "" →
  timespan (so_expiresIn (tokenOptions env options)) now = Some exp →
  now' < exp →
  ∃ token decoded,
    generateToken env now userId options = Ok token
    ∧ verifyToken env now' token = Ok decoded
    ∧ decoded !! "userId" = Some (JStr userId).
Proof.
  intros Hsecret Hkey Hexp Hlt.
  eexists _, _. split; [by apply (generateToken_ok _ _ _ _ key exp)|].
  by apply verifyToken_signed.
Qed.

Lemma verifyToken_generateToken_roundtrip_witness :
  ∃ token decoded,
    generateToken sampleEnv 1000 "507f1f77bcf86cd799439011" noOptions = Ok token
    ∧ verifyToken sampleEnv 1000 token = Ok decoded
    ∧ decoded !! "userId" = Some (JStr "507f1f77bcf86cd799439011").
Proof.
  apply (verifyToken_generateToken_roundtrip sampleEnv 1000 1000
           "507f1f77bcf86cd799439011" noOptions "s3cret" 605800).
  - reflexivity.
  - discriminate.
  - vm_compute. reflexivity.
  - lia.
Defined.

(** With the default expiry ([JWT_EXPIRE] unset, no [expiresIn] option)
    the token is good for seven days from its issue. *)
Lemma verifyToken_generateToken_default (env : gmap string string) (now now' : Z)
    (userId : string) (key : string) :
  env !! "JWT_SECRET" = Some key → key ≠ "" →
  env !! "JWT_EXPIRE" = None →
  now' < now + 604800 →
  ∃ token decoded,
    generateToken env now userId noOptions = Ok token
    ∧ verifyToken env now' token = Ok decoded
    ∧ decoded !! "userId" = Some (JStr userId).
Proof.
  intros Hsecret Hkey Hexpire Hlt.
  assert (timespan (so_expiresIn (tokenOptions env noOptions)) now = Some (now + 604800))
    as Hexp.
  { unfold tokenOptions. simpl. rewrite Hexpire.
    change (or_string None (env_or None "7d")) with (JStr "7d").
    apply timespan_7d. }
  eexists _, _. split; [by apply (generateToken_ok _ _ _ _ key (now + 604800))|].
  by apply verifyToken_signed.
Qed.

(** C6. With the secret configured, [generateRefreshToken] returns a
    token whose payload is exactly [userId], [type: 'refresh'] and the four
    claims that [sign] adds: issued at [now], expiring thirty days
    (2592000 seconds) later whatever [JWT_EXPIRE] says, with the audience
    and issuer, and under the key, that [generateToken] uses (for every
    choice of its options). No [role] or [email] is in the payload. *)
Theorem generateRefreshToken_contract (env : gmap string string) (now : Z)
    (userId : string) (key : string) :
  env !! "JWT_SECRET" = Some key → key ≠ "" →
  ∃ payload,
    generateRefreshToken env now userId = Ok (Jws "HS256" payload (SigHmac key))
    ∧ dom payload = {[ "userId"; "type"; "iat"; "exp"; "aud"; "iss" ]}
    ∧ payload !! "userId" = Some (JStr userId)
    ∧ payload !! "type" = Some (JStr "refresh")
    ∧ payload !! "iat" = Some (JNum now)
    ∧ payload !! "exp" = Some (JNum (now + 2592000))
    ∧ payload !! "role" = None
    ∧ payload !! "email" = None
    ∧ ∀ now0 userId0 options token,
        generateToken env now0 userId0 options = Ok token →
        ∃ payload0,
          token = Jws "HS256" payload0 (SigHmac key)
          ∧ payload0 !! "aud" = payload !! "aud"
          ∧ payload0 !! "iss" = payload !! "iss".
Proof.
  intros Hsecret Hkey. eexists. split.
  { unfold generateRefreshToken. rewrite Hsecret.
    apply (sign_ok _ _ _ _ (now + 2592000)); [done| |apply timespan_30d].
    intros k Hk.
    repeat (apply elem_of_cons in Hk as [->|Hk]; [done|]).
    by apply elem_of_nil in Hk. }
  unfold signedPayload. simpl.
  split. { rewrite !dom_insert_L, dom_singleton_L. set_solver. }
  do 6 (split; [done|]).
  intros now0 userId0 options token Hgen.
  apply sign_inv in Hgen as (key0 & exp0 & Hkey0 & _ & _ & ->).
  rewrite Hsecret in Hkey0. injection Hkey0 as <-.
  eexists. split; [done|]. unfold signedPayload. simpl. split.
  - rewrite !(lookup_insert_ne _ "iss" "aud") by done. by rewrite !lookup_insert_eq.
  - by rewrite !lookup_insert_eq.
Qed.

Lemma generateRefreshToken_contract_witness :
  ∃ payload,
    generateRefreshToken sampleEnv 1000 "507f1f77bcf86cd799439011"
    = Ok (Jws "HS256" payload (SigHmac "s3cret"))
    ∧ payload !! "exp" = Some (JNum 2593000)
    ∧ payload !! "type" = Some (JStr "refresh").
Proof.
  destruct (generateRefreshToken_contract sampleEnv 1000 "507f1f77bcf86cd799439011"
              "s3cret" eq_refl ltac:(discriminate))
    as (payload & Hgen & _ & _ & Htype & _ & Hexp & _).
  exists payload. split; [exact Hgen|]. split; [exact Hexp|exact Htype].
Defined.

(** [isTokenExpired] says [true] exactly when the token does not decode,
    has no [exp] claim, has a falsy one, or has one that is less than the
    current time. *)
Lemma isTokenExpired_true_iff (string_lt_number : string → Z → bool)
    (token : Token) (currentTime : Z) :
  isTokenExpired string_lt_number token currentTime = true
  ↔ decode token = None
    ∨ ∃ decoded, decode token = Some decoded
        ∧ (decoded !! "exp" = None
           ∨ ∃ exp, decoded !! "exp" = Some exp
               ∧ (truthy exp = false ∨ lt_number string_lt_number exp currentTime = true)).
Proof.
  unfold isTokenExpired.
  destruct (decode token) as [decoded|]; [|by split; [left|]].
  destruct (decoded !! "exp") as [exp|] eqn:Hexp; simpl.
  - destruct (truthy exp) eqn:Htruthy; simpl.
    + split.
      * intros Hlt. right. exists decoded. split; [done|]. right. exists exp.
        split; [done|]. by right.
      * intros [|(? & [= <-] & [|(exp' & Hexp' & [|])])]; try done.
        -- congruence.
        -- congruence.
        -- congruence.
    + split; [|done]. intros _. right. exists decoded. split; [done|]. right.
      exists exp. split; [done|]. by left.
  - split; [|done]. intros _. right. exists decoded. split; [done|]. by left.
Qed.

(** For a numeric, non-zero [exp] the comparison is strict: the token is
    reported expired from the second after [exp] on. *)
Lemma isTokenExpired_numeric (string_lt_number : string → Z → bool)
    (alg : string) (payload : gmap string JVal) (signature : Signature)
    (exp currentTime : Z) :
  payload !! "exp" = Some (JNum exp) → exp ≠ 0 →
  isTokenExpired string_lt_number (Jws alg payload signature) currentTime
  = bool_decide (exp < currentTime).
Proof.
  intros Hexp Hnz. unfold isTokenExpired. simpl. rewrite Hexp. simpl.
  assert ((exp =? 0) = false) as -> by lia. simpl.
  case_bool_decide; lia.
Qed.

(** C5. A token issued with a lifetime of zero seconds (its [exp] is
    the second of issue) is not reported expired by [isTokenExpired] when
    asked within that same second, although [verifyToken] rejects it as
    expired at that time. *)
Theorem isTokenExpired_zero_lifetime_same_second
    (string_lt_number : string → Z → bool) (env : gmap string string) (now : Z)
    (userId : string) (options : TokenOptions) (token : Token) :
  generateToken env now userId options = Ok token →
  timespan (so_expiresIn (tokenOptions env options)) now = Some now →
  0 < now →
  isTokenExpired string_lt_number token now = false
  ∧ verifyToken env now token = Throw TokenExpiredError.
Proof.
  intros Hgen Hzero Hpos.
  apply sign_inv in Hgen as (key & exp & Hsecret & Hkey & Hexp & ->).
  assert (timestamp_of (accessPayload userId options) now = now) as Hts.
  { unfold timestamp_of. rewrite accessPayload_free; [done|repeat constructor]. }
  rewrite Hts in *. rewrite Hzero in Hexp. injection Hexp as <-.
  assert (signedPayload (accessPayload userId options) now now (tokenOptions env options)
          !! "exp" = Some (JNum now)) as Hlookup.
  { unfold signedPayload. rewrite !(lookup_insert_ne _ _ "exp") by done.
    apply lookup_insert_eq. }
  split.
  - rewrite (isTokenExpired_numeric _ _ _ _ now) by (done || lia).
    apply bool_decide_eq_false_2. lia.
  - unfold verifyToken. rewrite Hsecret.
    apply (verify_expired _ _ _ _ now); [done| |done|lia].
    unfold signedPayload. rewrite !lookup_insert_ne by done.
    apply accessPayload_free. repeat constructor.
Qed.

Lemma isTokenExpired_zero_lifetime_same_second_witness :
  ∃ token,
    generateToken sampleEnv 1700000000 "507f1f77bcf86cd799439011" zeroSeconds = Ok token
    ∧ isTokenExpired (λ _ _, false) token 1700000000 = false
    ∧ verifyToken sampleEnv 1700000000 token = Throw TokenExpiredError.
Proof.
  eexists. split; [vm_compute; reflexivity|].
  apply (isTokenExpired_zero_lifetime_same_second (λ _ _, false) sampleEnv 1700000000
           "507f1f77bcf86cd799439011" zeroSeconds).
  - vm_compute. reflexivity.
  - vm_compute. reflexivity.
  - lia.
Defined.

(** ** Start-up *)

Ltac not_in_trace :=
  let Hin := fresh "Hin" in
  intros ? Hin;
  repeat (apply elem_of_cons in Hin as [Hin|Hin]; [discriminate Hin|]);
  by apply elem_of_nil in Hin.

(** C7. When [JWT_SECRET] or [MONGODB_URI] is absent from the
    environment that the script checks, the script ends the process with
    exit code 1 and [server.js] is never loaded. *)
Theorem start_missing_required_exits (envFile : option (gmap string string))
    (processEnv : gmap string string) :
  startupEnv envFile processEnv !! "JWT_SECRET" = None
  ∨ startupEnv envFile processEnv !! "MONGODB_URI" = None →
  exitsBeforeServing (start envFile processEnv).
Proof.
  unfold exitsBeforeServing, start, startupEnv.
  destruct envFile as [fileVars|].
  - intros Hmissing. simpl.
    destruct (dotenv_config fileVars processEnv !! "JWT_SECRET") as [secret|] eqn:Hsecret;
      destruct (dotenv_config fileVars processEnv !! "MONGODB_URI") as [uri|] eqn:Huri;
      simpl.
    + by destruct Hmissing.
    + destruct (negb (String.eqb secret "")); simpl; (split; [done|not_in_trace]).
    + destruct (negb (String.eqb uri "")); simpl; (split; [done|not_in_trace]).
    + split; [done|not_in_trace].
  - intros _. split; [done|not_in_trace].
Qed.

Lemma start_missing_required_exits_witness :
  exitsBeforeServing
    (start (Some ∅) {[ "MONGODB_URI" := "mongodb://db/app" ]}).
Proof.
  apply start_missing_required_exits. left. vm_compute. reflexivity.
Defined.

(** The same holds for a variable set to the empty string, and the script
    does load the server when the file exists and both variables are set. *)
Lemma start_exits_iff (envFile : option (gmap string string))
    (processEnv : gmap string string) :
  exitsBeforeServing (start envFile processEnv)
  ↔ envFile = None
    ∨ env_truthy (startupEnv envFile processEnv !! "JWT_SECRET") = false
    ∨ env_truthy (startupEnv envFile processEnv !! "MONGODB_URI") = false.
Proof.
  unfold exitsBeforeServing, start, startupEnv.
  destruct envFile as [fileVars|]; [|split; [by left|intros _; split; [done|not_in_trace]]].
  simpl.
  destruct (env_truthy (dotenv_config fileVars processEnv !! "JWT_SECRET"));
    destruct (env_truthy (dotenv_config fileVars processEnv !! "MONGODB_URI")); simpl.
  - split; [intros [[=] _]|intros [[=]|[[=]|[=]]]].
  - split; [by right; right|intros _; split; [done|not_in_trace]].
  - split; [by right; left|intros _; split; [done|not_in_trace]].
  - split; [by right; left|intros _; split; [done|not_in_trace]].
Qed.

(** ** The users routes *)

Lemma head_filter_None {A : Type} (f : A → bool) (l : list A) :
  head (List.filter f l) = None ↔ ∀ x, x ∈ l → f x = false.
Proof.
  induction l as [|a l IH]; simpl.
  - split; [|done]. intros _ x Hx. by apply elem_of_nil in Hx.
  - destruct (f a) eqn:Hfa; simpl.
    + split; [done|]. intros Hall. specialize (Hall a (list_elem_of_here _ _)). congruence.
    + rewrite IH. split.
      * intros Hall x [->|Hx]%elem_of_cons; auto.
      * intros Hall x Hx. apply Hall. by apply list_elem_of_further.
Qed.

Lemma head_filter_Some {A : Type} (f : A → bool) (l : list A) (x : A) :
  head (List.filter f l) = Some x → x ∈ l ∧ f x = true.
Proof.
  induction l as [|a l IH]; simpl; [done|].
  destruct (f a) eqn:Hfa; simpl.
  - intros [= <-]. split; [apply list_elem_of_here|done].
  - intros Hx. destruct (IH Hx). split; [by apply list_elem_of_further|done].
Qed.

Lemma findOne_ne_username (castObjectId : string → option string)
    (users : gmap string User) (name : option JVal) (id oid : string) :
  castObjectId id = Some oid →
  (findOne_ne castObjectId users (UsersRoute.hasUsername name) id = Resolve None
   ∧ ¬ usernameHeldByOther users oid name)
  ∨ ((∃ existingUser,
        findOne_ne castObjectId users (UsersRoute.hasUsername name) id
        = Resolve (Some existingUser))
     ∧ usernameHeldByOther users oid name).
Proof.
  intros Hcast. unfold findOne_ne. rewrite Hcast.
  destruct (head _) as [[k u]|] eqn:Hhead.
  - right. split; [by eexists|].
    apply head_filter_Some in Hhead as [Hin Hf].
    apply elem_of_map_to_list in Hin. simpl in Hf.
    apply andb_true_iff in Hf as [Hname Hne].
    exists k, u. split; [done|]. split.
    + intros ->. by rewrite String.eqb_refl in Hne.
    + unfold UsersRoute.hasUsername in Hname. by apply bool_decide_eq_true in Hname.
  - left. split; [done|]. intros (k & u & Hku & Hne & Hname).
    rewrite head_filter_None in Hhead.
    specialize (Hhead (k, u)). simpl in Hhead.
    rewrite elem_of_map_to_list in Hhead. specialize (Hhead Hku).
    unfold UsersRoute.hasUsername in Hhead.
    rewrite bool_decide_eq_true_2 in Hhead by done.
    destruct (String.eqb_spec k oid); [done|]. done.
Qed.

(** A body that passes [updateUserSchema] has each of the three fields
    either missing or a non-empty string. *)
Lemma updateUserSchema_valid_field (body : gmap string JVal) (key : string) :
  Joi.validate UsersRoute.updateUserSchema body = None →
  key ∈ ["firstName"; "lastName"; "username"] →
  body !! key = None ∨ ∃ s, body !! key = Some (JStr s) ∧ s ≠ "".
Proof.
  unfold Joi.validate.
  destruct (Joi.validateKeys _ _) eqn:Hkeys; [done|]. intros _ Hkey.
  revert Hkeys. unfold UsersRoute.updateUserSchema. simpl.
  assert (∀ k schema v, Joi.validateString k schema v = None →
            ∃ s, v = JStr s ∧ s ≠ "") as Hstr.
  { intros k schema [| | |s]; simpl; try done.
    destruct (String.eqb_spec s ""); [done|]. intros _. by exists s. }
  destruct (body !! "firstName") as [v1|] eqn:H1.
  2: destruct (body !! "lastName") as [v2|] eqn:H2.
  3: destruct (body !! "username") as [v3|] eqn:H3.
  all: repeat match goal with
         | |- context [Joi.validateString ?k ?sc ?v] =>
             let E := fresh "E" in
             destruct (Joi.validateString k sc v) eqn:E; [done|];
             apply Hstr in E as (? & -> & ?)
         end.
  all: try (destruct (body !! "lastName") as [v2|] eqn:H2).
  all: repeat match goal with
         | |- context [Joi.validateString ?k ?sc ?v] =>
             let E := fresh "E" in
             destruct (Joi.validateString k sc v) eqn:E; [done|];
             apply Hstr in E as (? & -> & ?)
         end.
  all: try (destruct (body !! "username") as [v3|] eqn:H3).
  all: repeat match goal with
         | |- context [Joi.validateString ?k ?sc ?v] =>
             let E := fresh "E" in
             destruct (Joi.validateString k sc v) eqn:E; [done|];
             apply Hstr in E as (? & -> & ?)
         end.
  all: intros _;
    repeat (apply elem_of_cons in Hkey as [->|Hkey]; [by eauto|]);
    by apply elem_of_nil in Hkey.
Qed.

Lemma authorized_check (req : Request) :
  bool_decide (userId (user req) ≠ Some (JStr (params_id req)))
  && bool_decide (Http.role (user req) ≠ Some (JStr "admin")) = true
  ↔ ¬ authorized req.
Proof.
  unfold authorized. rewrite andb_true_iff, !bool_decide_eq_true. tauto.
Qed.

(** The five ways in which [PUT /users/:id] answers a body that passes
    the schema. *)
Lemma put_id_cases (castObjectId : string → option string) (now : Z)
    (req : Request) (st : Store) :
  Joi.validate UsersRoute.updateUserSchema (body req) = None →
  (¬ authorized req
   ∧ UsersRoute.put_id castObjectId now req st = (failure 403 "Access denied", st))
  ∨ (authorized req ∧ castObjectId (params_id req) = None
     ∧ UsersRoute.put_id castObjectId now req st = (serverError, st))
  ∨ (authorized req
     ∧ ∃ oid, castObjectId (params_id req) = Some oid
         ∧ usernameHeldByOther (users st) oid (body req !! "username")
         ∧ UsersRoute.put_id castObjectId now req st
           = (failure 400 "Username already taken", st))
  ∨ (authorized req
     ∧ ∃ oid, castObjectId (params_id req) = Some oid
         ∧ ¬ usernameHeldByOther (users st) oid (body req !! "username")
         ∧ users st !! oid = None
         ∧ UsersRoute.put_id castObjectId now req st = (failure 404 "User not found", st))
  ∨ (authorized req
     ∧ (∃ oid, castObjectId (params_id req) = Some oid
          ∧ ¬ usernameHeldByOther (users st) oid (body req !! "username")
          ∧ is_Some (users st !! oid))
     ∧ updatePerformed castObjectId now req st).
Proof.
  intros Hvalid. unfold UsersRoute.put_id. rewrite Hvalid.
  destruct (bool_decide _ && bool_decide _) eqn:Hauth.
  { left. by apply authorized_check in Hauth. }
  assert (authorized req) as Hok.
  { destruct (decide (authorized req)) as [|Hno]; [done|].
    apply authorized_check in Hno. congruence. }
  right.
  destruct (castObjectId (params_id req)) as [oid|] eqn:Hcast.
  2: { left. split; [done|]. split; [done|].
       unfold findOne_ne, findByIdAndUpdate. rewrite Hcast.
       by destruct (truthy_opt _). }
  right.
  assert (∃ r, (if truthy_opt (body req !! "username")
                then findOne_ne castObjectId (users st)
                       (UsersRoute.hasUsername (body req !! "username")) (params_id req)
                else Resolve None) = Resolve r
               ∧ (match r with
                  | Some _ => usernameHeldByOther (users st) oid (body req !! "username")
                  | None => ¬ usernameHeldByOther (users st) oid (body req !! "username")
                  end)) as (r & -> & Hr).
  { destruct (updateUserSchema_valid_field (body req) "username" Hvalid)
      as [Hnone|(name & Hname & Hne)]; [repeat constructor| |].
    - rewrite Hnone. simpl. exists None. split; [done|].
      by intros (k & u & _ & _ & [=]).
    - rewrite Hname. simpl. destruct (String.eqb_spec name ""); [done|]. simpl.
      destruct (findOne_ne_username castObjectId (users st) (Some (JStr name))
                  (params_id req) oid Hcast) as [[-> Hfree]|[[existing ->] Hheld]].
      + by exists None.
      + by exists (Some existing). }
  destruct r as [existing|].
  { left. split; [done|]. by exists oid. }
  right. unfold findByIdAndUpdate. rewrite Hcast.
  destruct (users st !! oid) as [u|] eqn:Hu.
  - right. split; [done|]. split.
    + exists oid. by rewrite Hu.
    + exists oid, u. split; [done|]. split; [done|].
      simpl. unfold UsersRoute.put_id. rewrite Hvalid, Hauth.
      destruct (updateUserSchema_valid_field (body req) "username" Hvalid)
        as [Hnone|(name & Hname & Hne)]; [repeat constructor| |].
      * rewrite Hnone. simpl. unfold findByIdAndUpdate. by rewrite Hcast, Hu.
      * rewrite Hname in *. simpl. destruct (String.eqb_spec name ""); [done|]. simpl.
        destruct (findOne_ne_username castObjectId (users st) (Some (JStr name))
                    (params_id req) oid Hcast) as [[-> Hfree]|[_ Hheld]]; [|done].
        unfold findByIdAndUpdate. by rewrite Hcast, Hu.
  - left. split; [done|]. by exists oid.
Qed.




(** The store after [PUT /users/:id], for any request at all: unchanged, or
    with the one record replaced by its update. *)
Lemma put_id_store (castObjectId : string → option string) (now : Z)
    (req : Request) (st : Store) :
  (UsersRoute.put_id castObjectId now req st).2 = st
  ∨ ∃ oid u,
      castObjectId (params_id req) = Some oid
      ∧ users st !! oid = Some u
      ∧ (UsersRoute.put_id castObjectId now req st).2
        = UsersRoute.withUsers st
            (<[oid := UsersRoute.userUpdate (body req !! "firstName")
                        (body req !! "lastName") (body req !! "username") now u]>
               (users st)).
Proof.
  unfold UsersRoute.put_id.
  destruct (Joi.validate _ _); [by left|].
  destruct (bool_decide _ && bool_decide _); [by left|].
  destruct (if truthy_opt _ then _ else _) as [[existing|]|]; [by left| |by left].
  unfold findByIdAndUpdate.
  destruct (castObjectId (params_id req)) as [oid|] eqn:Hcast; [|by left].
  destruct (users st !! oid) as [u|] eqn:Hu; [|by left].
  right. by exists oid, u.
Qed.

(** C9. [PUT /users/:id] never changes the role, the email, the
    password hash or the active flag of a stored user (nor the creation
    time), whatever the body and whoever the requester is; records other
    than the one addressed are not changed at all, and none is added or
    removed. Only [firstName], [lastName], [username] and [updatedAt] of
    the addressed record can differ afterwards. *)
Theorem put_id_frame (castObjectId : string → option string) (now : Z)
    (req : Request) (st : Store) (k : string) (u : User) :
  users st !! k = Some u →
  let st' := (UsersRoute.put_id castObjectId now req st).2 in
  products st' = products st
  ∧ dom (users st') = dom (users st)
  ∧ ∃ u', users st' !! k = Some u'
      ∧ Mongoose.role u' = Mongoose.role u
      ∧ Mongoose.email u' = Mongoose.email u
      ∧ password u' = password u
      ∧ isActive u' = isActive u
      ∧ createdAt u' = createdAt u
      ∧ (castObjectId (params_id req) ≠ Some k → u' = u).
Proof.
  intros Hk. simpl.
  destruct (put_id_store castObjectId now req st) as [->|(oid & u0 & Hcast & Hu0 & ->)].
  - split; [done|]. split; [done|]. by exists u.
  - simpl. split; [done|]. split.
    + apply dom_insert_lookup_L. by rewrite Hu0.
    + destruct (decide (oid = k)) as [->|Hne].
      * rewrite lookup_insert_eq. rewrite Hk in Hu0. injection Hu0 as <-.
        eexists. split; [done|]. simpl. repeat (split; [done|]). intros Hne. by destruct Hne.
      * rewrite lookup_insert_ne by done. exists u. by rewrite Hk.
Qed.

Lemma put_id_frame_witness :
  let st' := (UsersRoute.put_id castHex24 1700000500000 rootRenamesBob sampleStore).2 in
  products st' = products sampleStore
  ∧ dom (users st') = dom (users sampleStore)
  ∧ ∃ u', users st' !! bobId = Some u'
      ∧ Mongoose.role u' = "user"
      ∧ Mongoose.email u' = "bob@example.com"
      ∧ password u' = "$2a$12$LQv3c1yqBWVHxkd0LHAkCO"
      ∧ isActive u' = true
      ∧ createdAt u' = 1700000000000
      ∧ (castHex24 (params_id rootRenamesBob) ≠ Some bobId
         → u' = sampleUser "bob" "bob@example.com" "user").
Proof.
  apply (put_id_frame castHex24 1700000500000 rootRenamesBob sampleStore bobId
           (sampleUser "bob" "bob@example.com" "user")).
  vm_compute. reflexivity.
Defined.

Example put_id_renames_bob :
  users (UsersRoute.put_id castHex24 1700000500000 rootRenamesBob sampleStore).2 !! bobId
  = Some {| username := "robert"; email := "bob@example.com";
            password := "$2a$12$LQv3c1yqBWVHxkd0LHAkCO";
            firstName := "bob"; lastName := "User"; role := "user"; isActive := true;
            createdAt := 1700000000000; updatedAt := 1700000500000 |}.
Proof. vm_compute. reflexivity. Qed.

(** An admin who addresses [DELETE /users/:id] or
    [PUT /users/:id/toggle-status] to their own id, spelled as in the
    token, the record existing, passes the role gate and is answered 400
    by the handler; the store is unchanged. *)
Lemma admin_self_protection (castObjectId : string → option string)
    (req : Request) (st : Store) (oid : string) (u : User) :
  Http.role (user req) = Some (JStr "admin") →
  userId (user req) = Some (JStr (params_id req)) →
  castObjectId (params_id req) = Some oid →
  users st !! oid = Some u →
  UsersRoute.delete_id castObjectId req st
  = (Handled (failure 400 "Cannot delete your own account"), st)
  ∧ UsersRoute.toggle_status castObjectId req st
    = (Handled (failure 400 "Cannot change your own status"), st).
Proof.
  intros Hrole Hself Hcast Hu.
  unfold UsersRoute.delete_id, UsersRoute.toggle_status, admin.
  rewrite !bool_decide_eq_true_2 by done.
  unfold UsersRoute.delete_id_handler, UsersRoute.toggle_status_handler, findById.
  rewrite Hcast, Hu. by rewrite !bool_decide_eq_true_2 by done.
Qed.

Example admin_self_protection_root :
  UsersRoute.delete_id castHex24 rootOnSelf sampleStore
  = (Handled (failure 400 "Cannot delete your own account"), sampleStore)
  ∧ UsersRoute.toggle_status castHex24 rootOnSelf sampleStore
    = (Handled (failure 400 "Cannot change your own status"), sampleStore).
Proof.
  apply (admin_self_protection castHex24 rootOnSelf sampleStore rootId
           (sampleUser "admin" "admin@example.com" "admin")).
  - reflexivity.
  - reflexivity.
  - vm_compute. reflexivity.
  - vm_compute. reflexivity.
Defined.

(** C3. The self-protection of the two admin-only routes does not
    hold for every request on the admin's own id. The record is found
    through the ObjectId that [:id] is cast to, while
    [req.user.userId === req.params.id] compares strings: an admin who
    addresses [DELETE /users/:id] or [PUT /users/:id/toggle-status] to
    their own record under another spelling of its id (one cast to the
    same ObjectId, such as capital hexadecimal digits) is not answered
    400. The delete route answers 200 and the admin's own record is gone;
    the toggle route answers 200 and the record's [isActive] is flipped. *)
Theorem admin_self_protection_bypassed (castObjectId : string → option string)
    (req : Request) (st : Store) (uid oid : string) (u : User) :
  Http.role (user req) = Some (JStr "admin") →
  userId (user req) = Some (JStr uid) →
  castObjectId uid = Some oid →
  castObjectId (params_id req) = Some oid →
  params_id req ≠ uid →
  users st !! oid = Some u →
  UsersRoute.delete_id castObjectId req st
  = (Handled {| status := 200; success := true;
                message := Some (Text "User deleted successfully");
                payload := None |},
     UsersRoute.withUsers st (delete oid (users st)))
  ∧ users (UsersRoute.delete_id castObjectId req st).2 !! oid = None
  ∧ UsersRoute.toggle_status castObjectId req st
    = (Handled {| status := 200; success := true;
                  message :=
                    Some (Text ("User " +:+
                                (if isActive u then "deactivated" else "activated")
                                +:+ " successfully"));
                  payload := Some (UsersRoute.UserStatus oid (username u)
                                     (Mongoose.email u) (negb (isActive u))) |},
       UsersRoute.withUsers st (<[oid := UsersRoute.toggled u]> (users st)))
  ∧ (isActive <$> users (UsersRoute.toggle_status castObjectId req st).2 !! oid)
    = Some (negb (isActive u)).
Proof.
  intros Hrole Hself Huid Hcast Hne Hu.
  assert (userId (user req) ≠ Some (JStr (params_id req))) as Hother.
  { rewrite Hself. intros [= Heq]. by apply Hne. }
  unfold UsersRoute.delete_id, UsersRoute.toggle_status, admin.
  rewrite !bool_decide_eq_true_2 by done.
  unfold UsersRoute.delete_id_handler, UsersRoute.toggle_status_handler,
    findById, findByIdAndDelete, save.
  rewrite Hcast, Hu. cbn [fmap option_fmap option_map].
  rewrite !(bool_decide_eq_false_2 _ Hother). cbn [fst snd UsersRoute.withUsers users].
  split; [done|]. split; [apply lookup_delete_eq|].
  split; [|by rewrite lookup_insert_eq].
  destruct u as [? ? ? ? ? ? active ? ?]. by destruct active.
Qed.

Lemma admin_self_protection_bypassed_witness :
  UsersRoute.delete_id castHex24 rootOnSelfCapitals sampleStore
  = (Handled {| status := 200; success := true;
                message := Some (Text "User deleted successfully");
                payload := None |},
     UsersRoute.withUsers sampleStore (delete rootId (users sampleStore)))
  ∧ users (UsersRoute.delete_id castHex24 rootOnSelfCapitals sampleStore).2 !! rootId
    = None
  ∧ UsersRoute.toggle_status castHex24 rootOnSelfCapitals sampleStore
    = (Handled {| status := 200; success := true;
                  message := Some (Text "User deactivated successfully");
                  payload := Some (UsersRoute.UserStatus rootId "admin"
                                     "admin@example.com" false) |},
       UsersRoute.withUsers sampleStore
         (<[rootId := UsersRoute.toggled
                        (sampleUser "admin" "admin@example.com" "admin")]>
            (users sampleStore)))
  ∧ (isActive <$> users (UsersRoute.toggle_status castHex24 rootOnSelfCapitals
                           sampleStore).2 !! rootId)
    = Some false.
Proof.
  apply (admin_self_protection_bypassed castHex24 rootOnSelfCapitals sampleStore
           rootId rootId (sampleUser "admin" "admin@example.com" "admin")).
  - reflexivity.
  - reflexivity.
  - vm_compute. reflexivity.
  - vm_compute. reflexivity.
  - intros H. vm_compute in H. discriminate H.
  - vm_compute. reflexivity.
Defined.

(** On another user's id the same routes do delete and toggle. *)
Example admin_deletes_bob :
  let req := {| user := asUser rootId "admin"; params_id := bobId; body := ∅ |} in
  users (UsersRoute.delete_id castHex24 req sampleStore).2 !! bobId = None
  ∧ (isActive <$> users (UsersRoute.toggle_status castHex24 req sampleStore).2 !! bobId)
    = Some false.
Proof. split; vm_compute; reflexivity. Qed.

(** ** The products routes *)

(** C8. [DELETE /products/:id] on an existing product never removes
    the record: after any request the record is still stored, and after an
    admin's request it is the old record with [isActive] set to [false]
    and [updatedAt] to the current time, every other field as before; the
    response is the success response, and no other record, product or
    user, is touched. *)
Theorem product_delete_is_soft (castObjectId : string → option string) (now : Z)
    (req : Request) (st : Store) (oid : string) (p : Product) :
  castObjectId (params_id req) = Some oid →
  products st !! oid = Some p →
  let outcome := (ProductsRoute.delete_id castObjectId now req st).1 in
  let st' := (ProductsRoute.delete_id castObjectId now req st).2 in
  is_Some (products st' !! oid)
  ∧ dom (products st') = dom (products st)
  ∧ users st' = users st
  ∧ (∀ k, k ≠ oid → products st' !! k = products st !! k)
  ∧ (Http.role (user req) = Some (JStr "admin") →
     outcome = Handled {| status := 200; success := true;
                          message := Some (Text "Product deleted successfully");
                          payload := None |}
     ∧ ∃ p', products st' !! oid = Some p'
         ∧ p_isActive p' = false
         ∧ p_updatedAt p' = now
         ∧ p_name p' = p_name p
         ∧ p_description p' = p_description p
         ∧ p_price p' = p_price p
         ∧ p_category p' = p_category p
         ∧ p_stock p' = p_stock p
         ∧ p_images p' = p_images p
         ∧ p_specifications p' = p_specifications p
         ∧ p_tags p' = p_tags p
         ∧ p_createdBy p' = p_createdBy p
         ∧ p_createdAt p' = p_createdAt p).
Proof.
  intros Hcast Hp. simpl.
  unfold ProductsRoute.delete_id, admin, ProductsRoute.delete_id_handler, findByIdAndUpdate.
  rewrite Hcast, Hp.
  case_bool_decide as Hrole; simpl.
  - split; [by rewrite lookup_insert_eq|].
    split; [apply dom_insert_lookup_L; by rewrite Hp|].
    split; [done|].
    split; [by intros k Hk; rewrite lookup_insert_ne|].
    intros _. split; [done|].
    exists (ProductsRoute.softDelete now p). by rewrite lookup_insert_eq.
  - split; [by rewrite Hp|]. do 3 (split; [done|]). done.
Qed.

Lemma product_delete_is_soft_witness :
  let st' := (ProductsRoute.delete_id castHex24 1700000500000 rootDeletesLaptop
                sampleStore).2 in
  is_Some (products st' !! laptopId)
  ∧ ∃ p', products st' !! laptopId = Some p'
      ∧ p_isActive p' = false
      ∧ p_updatedAt p' = 1700000500000
      ∧ p_name p' = "Sample Laptop".
Proof.
  destruct (product_delete_is_soft castHex24 1700000500000 rootDeletesLaptop sampleStore
              laptopId (sampleProduct "Sample Laptop" true))
    as (Hstored & _ & _ & _ & Hadmin).
  - vm_compute. reflexivity.
  - vm_compute. reflexivity.
  - destruct (Hadmin eq_refl) as (_ & p' & Hp' & Hactive & Hupdated & Hname & _).
    split; [exact Hstored|]. exists p'.
    split; [exact Hp'|]. split; [exact Hactive|]. split; [exact Hupdated|exact Hname].
Defined.

(** C10, as first stated (for every id), fails on an id that is not an
    identifier of the store: no product has the id [xyz], and the query
    throws on it, which the handler answers with 500, not 404. *)
Lemma get_id_malformed_id_counterexample :
  castHex24 "xyz" = None
  ∧ products sampleStore !! "xyz" = None
  ∧ ProductsRoute.get_id castHex24 "xyz" sampleStore = serverError
  ∧ status (ProductsRoute.get_id castHex24 "xyz" sampleStore) ≠ 404.
Proof. repeat split; vm_compute; congruence. Qed.

(** C10. For an id that the store takes as an identifier,
    [GET /products/:id] gives the same 404 response when no product has
    this id and when the product with this id is inactive. *)
Theorem get_id_inactive_as_absent (castObjectId : string → option string)
    (id oid : string) (st : Store) :
  castObjectId id = Some oid →
  products st !! oid = None
  ∨ (∃ p, products st !! oid = Some p ∧ p_isActive p = false) →
  ProductsRoute.get_id castObjectId id st = failure 404 "Product not found".
Proof.
  intros Hcast Hcase. unfold ProductsRoute.get_id, findById. rewrite Hcast.
  destruct Hcase as [->|(p & -> & Hinactive)]; [done|]. simpl. by rewrite Hinactive.
Qed.

Lemma get_id_inactive_as_absent_witness :
  ProductsRoute.get_id castHex24 bookId sampleStore = failure 404 "Product not found"
  ∧ ProductsRoute.get_id castHex24 "64b7f1f77bcf86cd79943aff" sampleStore
    = failure 404 "Product not found".
Proof.
  split.
  - apply (get_id_inactive_as_absent castHex24 bookId bookId sampleStore).
    + vm_compute. reflexivity.
    + right. exists (sampleProduct "Programming Book" false).
      split; vm_compute; reflexivity.
  - apply (get_id_inactive_as_absent castHex24 "64b7f1f77bcf86cd79943aff"
             "64b7f1f77bcf86cd79943aff" sampleStore).
    + vm_compute. reflexivity.
    + left. vm_compute. reflexivity.
Defined.

(** An active product is returned, with its creator populated; an id that
    is not an identifier makes the query throw, which the handler answers
    with 500. *)
Lemma get_id_active (castObjectId : string → option string)
    (id oid : string) (st : Store) (p : Product) :
  castObjectId id = Some oid →
  products st !! oid = Some p → p_isActive p = true →
  ProductsRoute.get_id castObjectId id st
  = {| status := 200; success := true; message := None;
       payload := Some (ProductsRoute.populate st oid p) |}.
Proof.
  intros Hcast Hp Hactive. unfold ProductsRoute.get_id, findById.
  rewrite Hcast, Hp. simpl. by rewrite Hactive.
Qed.

Lemma get_id_cast_error (castObjectId : string → option string)
    (id : string) (st : Store) :
  castObjectId id = None → ProductsRoute.get_id castObjectId id st = serverError.
Proof.
  intros Hcast. unfold ProductsRoute.get_id, findById. by rewrite Hcast.
Qed.

(* ===================================================================== *)
(** * Further properties of the code                                      *)
(* ===================================================================== *)

(** ** Issuing tokens *)

Lemma timestamp_of_accessPayload (userId : string) (options : TokenOptions) (now : Z) :
  timestamp_of (accessPayload userId options) now = now.
Proof.
  unfold timestamp_of. rewrite accessPayload_free; [done|repeat constructor].
Qed.

Lemma generateToken_inv (env : gmap string string) (now : Z) (userId : string)
    (options : TokenOptions) (token : Token) :
  generateToken env now userId options = Ok token →
  ∃ key exp,
    env !! "JWT_SECRET" = Some key ∧ key ≠ ""
    ∧ timespan (so_expiresIn (tokenOptions env options)) now = Some exp
    ∧ token = Jws "HS256"
                (signedPayload (accessPayload userId options) now exp
                   (tokenOptions env options))
                (SigHmac key).
Proof.
  intros Hgen. apply sign_inv in Hgen as (key & exp & Hsecret & Hkey & Hexp & ->).
  rewrite timestamp_of_accessPayload in *. by exists key, exp.
Qed.



Example generateToken_bad_expiry :
  generateToken (<["JWT_EXPIRE" := "soon"]> sampleEnv) 1000 "u1" noOptions
  = Throw (Error "expiresIn should be a number of seconds or string representing a timespan eg: 1d, 20h, 60").
Proof. vm_compute. reflexivity. Qed.

(** X2. The payload of an issued access token: the user id, the time
    of issue, [role] and [email] exactly when the option is truthy (an
    empty string or [null] is left out), never a [type], and no claim
    beyond these and the [exp], [aud] and [iss] that signing adds. *)
Theorem generateToken_claims (env : gmap string string) (now : Z)
    (userId : string) (options : TokenOptions) (token : Token) :
  generateToken env now userId options = Ok token →
  ∃ payload,
    decode token = Some payload
    ∧ payload !! "userId" = Some (JStr userId)
    ∧ payload !! "iat" = Some (JNum now)
    ∧ payload !! "role"
      = (if truthy_opt (JwtUtils.role options) then JwtUtils.role options else None)
    ∧ payload !! "email"
      = (if truthy_opt (JwtUtils.email options) then JwtUtils.email options else None)
    ∧ payload !! "type" = None
    ∧ dom payload ⊆ {[ "userId"; "role"; "email"; "iat"; "exp"; "aud"; "iss" ]}.
Proof.
  intros Hgen.
  apply generateToken_inv in Hgen as (key & exp & _ & _ & _ & ->).
  eexists. split; [done|].
  assert (∀ k, k ∉ ["iat"; "exp"; "aud"; "iss"] →
            signedPayload (accessPayload userId options) now exp
              (tokenOptions env options) !! k
            = accessPayload userId options !! k) as Hother.
  { intros k Hk. by apply signedPayload_lookup. }
  assert (∀ k : string, k ∈ ["userId"; "role"; "email"; "type"] →
            k ∉ ["iat"; "exp"; "aud"; "iss"]) as Hnot.
  { intros k Hk Hk'.
    repeat (apply elem_of_cons in Hk as [->|Hk];
            [repeat (apply elem_of_cons in Hk' as [Hk'|Hk']; [discriminate Hk'|]);
             by apply elem_of_nil in Hk'|]).
    by apply elem_of_nil in Hk. }
  split; [|split; [|split; [|split; [|split]]]].
  - rewrite Hother by (apply Hnot; repeat constructor).
    rewrite accessPayload_lookup by done. apply lookup_singleton_eq.
  - unfold signedPayload. rewrite !(lookup_insert_ne _ _ "iat") by done.
    apply lookup_insert_eq.
  - rewrite Hother by (apply Hnot; repeat constructor).
    unfold accessPayload, add_if_truthy.
    destruct (JwtUtils.email options) as [e|]; [destruct (truthy e)|];
      destruct (JwtUtils.role options) as [r|]; simpl; try destruct (truthy r);
      rewrite ?(lookup_insert_ne _ "email" "role") by done;
      rewrite ?lookup_insert_eq; try done.
  - rewrite Hother by (apply Hnot; repeat constructor).
    unfold accessPayload, add_if_truthy.
    destruct (JwtUtils.email options) as [e|]; simpl; [destruct (truthy e)|];
      rewrite ?lookup_insert_eq; try done;
      destruct (JwtUtils.role options) as [r|]; try destruct (truthy r);
      rewrite ?(lookup_insert_ne _ "role" "email") by done; done.
  - rewrite Hother by (apply Hnot; repeat constructor).
    unfold accessPayload, add_if_truthy.
    destruct (JwtUtils.email options) as [e|]; [destruct (truthy e)|];
      destruct (JwtUtils.role options) as [r|]; try destruct (truthy r);
      by rewrite ?lookup_insert_ne by done.
  - unfold signedPayload, accessPayload, add_if_truthy.
    destruct (JwtUtils.email options) as [e|]; [destruct (truthy e)|];
      destruct (JwtUtils.role options) as [r|]; try destruct (truthy r);
      rewrite !dom_insert_L, dom_singleton_L;
      intros k; rewrite !elem_of_union, !elem_of_singleton; tauto.
Qed.

Lemma generateToken_claims_witness :
  ∃ token payload,
    generateToken sampleEnv 1000 "u1"
      {| JwtUtils.role := Some (JStr "admin"); JwtUtils.email := Some (JStr "");
         expiresIn := None |} = Ok token
    ∧ decode token = Some payload
    ∧ payload !! "role" = Some (JStr "admin")
    ∧ payload !! "email" = None.
Proof.
  eexists.
  destruct (generateToken_claims sampleEnv 1000 "u1"
              {| JwtUtils.role := Some (JStr "admin"); JwtUtils.email := Some (JStr "");
                 expiresIn := None |} _ eq_refl)
    as (payload & Hdec & _ & _ & Hrole & Hemail & _).
  exists payload. split; [reflexivity|]. split; [exact Hdec|].
  split; [exact Hrole|exact Hemail].
Defined.

(** X3. An [expiresIn] option that is falsy (the number 0, an empty
    string, [null], [false]) is ignored: the token is the one issued
    without the option. Under the default configuration it lasts seven
    days; the number 0 does not give a token of no lifetime. *)
Theorem generateToken_falsy_expiresIn (env : gmap string string) (now : Z)
    (userId : string) (options : TokenOptions) :
  truthy_opt (expiresIn options) = false →
  generateToken env now userId options
  = generateToken env now userId
      {| JwtUtils.role := JwtUtils.role options; JwtUtils.email := JwtUtils.email options;
         expiresIn := None |}
  ∧ (env !! "JWT_EXPIRE" = None →
     ∀ token, generateToken env now userId options = Ok token →
       ∃ payload, decode token = Some payload
         ∧ payload !! "exp" = Some (JNum (now + 604800))).
Proof.
  intros Hfalsy.
  assert (tokenOptions env options
          = tokenOptions env {| JwtUtils.role := JwtUtils.role options;
                                JwtUtils.email := JwtUtils.email options;
                                expiresIn := None |}) as Hopts.
  { unfold tokenOptions, or_string. simpl.
    destruct (expiresIn options) as [v|]; [|done]. simpl in Hfalsy. by rewrite Hfalsy. }
  split.
  - unfold generateToken. by rewrite Hopts.
  - intros Hexpire token Hgen.
    apply generateToken_inv in Hgen as (key & exp & _ & _ & Hexp & ->).
    rewrite Hopts in Hexp. unfold tokenOptions, or_string in Hexp.
    cbn [so_expiresIn expiresIn] in Hexp. rewrite Hexpire in Hexp.
    change (env_or None "7d") with "7d" in Hexp. rewrite timespan_7d in Hexp.
    injection Hexp as <-. eexists. split; [done|].
    unfold signedPayload. rewrite !(lookup_insert_ne _ _ "exp") by done.
    apply lookup_insert_eq.
Qed.

Lemma generateToken_falsy_expiresIn_witness :
  generateToken sampleEnv 1000 "u1"
    {| JwtUtils.role := None; JwtUtils.email := None; expiresIn := Some (JNum 0) |}
  = generateToken sampleEnv 1000 "u1" noOptions.
Proof.
  apply (generateToken_falsy_expiresIn sampleEnv 1000 "u1"
           {| JwtUtils.role := None; JwtUtils.email := None;
              expiresIn := Some (JNum 0) |}).
  reflexivity.
Defined.

(** ** Verifying tokens *)

(** X4. From its [exp] on, an issued access token is rejected by
    [verifyToken] with TokenExpiredError. *)
Theorem verifyToken_after_expiry (env : gmap string string) (now now' : Z)
    (userId : string) (options : TokenOptions) (token : Token) (exp : Z) :
  generateToken env now userId options = Ok token →
  timespan (so_expiresIn (tokenOptions env options)) now = Some exp →
  exp ≤ now' →
  verifyToken env now' token = Throw TokenExpiredError.
Proof.
  intros Hgen Hexp Hle.
  apply generateToken_inv in Hgen as (key & exp' & Hsecret & Hkey & Hexp' & ->).
  rewrite Hexp in Hexp'. injection Hexp' as <-.
  unfold verifyToken. rewrite Hsecret.
  apply (verify_expired _ _ _ _ exp); [done| | |done]; unfold signedPayload.
  - rewrite !lookup_insert_ne by done. apply accessPayload_free. repeat constructor.
  - rewrite !(lookup_insert_ne _ _ "exp") by done. apply lookup_insert_eq.
Qed.

Lemma verifyToken_after_expiry_witness :
  ∃ token,
    generateToken sampleEnv 1000 "u1" fractionalMinutes = Ok token
    ∧ verifyToken sampleEnv 2043 token = Throw TokenExpiredError.
Proof.
  eexists. split; [vm_compute; reflexivity|].
  apply (verifyToken_after_expiry sampleEnv 1000 2043 "u1" fractionalMinutes _ 2043).
  - vm_compute. reflexivity.
  - vm_compute. reflexivity.
  - lia.
Defined.



(** X6. The issuer is read from [APP_NAME] at issue and again at
    verification: a token that is otherwise good is rejected once the
    effective issuer name has changed, with a JsonWebTokenError whose
    message names the issuer now expected. *)
Theorem verifyToken_issuer_changed (env env' : gmap string string) (now now' : Z)
    (userId : string) (options : TokenOptions) (token : Token) (exp : Z) :
  generateToken env now userId options = Ok token →
  timespan (so_expiresIn (tokenOptions env options)) now = Some exp →
  now' < exp →
  env' !! "JWT_SECRET" = env !! "JWT_SECRET" →
  issuer env' ≠ issuer env →
  verifyToken env' now' token
  = Throw (JsonWebTokenError ("jwt issuer invalid. expected: " +:+ issuer env')).
Proof.
  intros Hgen Hexp Hlt Hsame Hissuer.
  apply generateToken_inv in Hgen as (key & exp' & Hsecret & Hkey & Hexp' & ->).
  rewrite Hexp in Hexp'. injection Hexp' as <-.
  unfold verifyToken, verify, number_claim_ok. rewrite Hsame, Hsecret.
  assert (env_truthy (Some key) = true) as ->.
  { simpl. by destruct (String.eqb_spec key ""). }
  set (payload := signedPayload _ _ _ _).
  assert (payload !! "nbf" = None) as ->.
  { unfold payload, signedPayload. rewrite !lookup_insert_ne by done.
    apply accessPayload_free. repeat constructor. }
  assert (payload !! "exp" = Some (JNum exp)) as ->.
  { unfold payload, signedPayload. rewrite !(lookup_insert_ne _ _ "exp") by done.
    apply lookup_insert_eq. }
  assert (payload !! "aud" = Some (JStr audience)) as ->.
  { unfold payload, signedPayload. rewrite !(lookup_insert_ne _ _ "aud") by done.
    apply lookup_insert_eq. }
  assert (payload !! "iss" = Some (JStr (issuer env))) as ->.
  { unfold payload, signedPayload. apply lookup_insert_eq. }
  simpl. assert ((exp <=? now') = false) as -> by lia.
  rewrite (bool_decide_eq_true_2 (Some (SigHmac key) = _)) by done.
  simpl. rewrite bool_decide_eq_false_2; [done|]. intros [= Heq]. by apply Hissuer.
Qed.

Lemma verifyToken_issuer_changed_witness :
  ∃ token,
    generateToken sampleEnv 1000 "u1" noOptions = Ok token
    ∧ verifyToken (<["APP_NAME" := "Shop API"]> sampleEnv) 1000 token
      = Throw (JsonWebTokenError "jwt issuer invalid. expected: Shop API").
Proof.
  eexists. split; [vm_compute; reflexivity|].
  change "jwt issuer invalid. expected: Shop API"
    with ("jwt issuer invalid. expected: "
          +:+ issuer (<["APP_NAME" := "Shop API"]> sampleEnv)).
  apply (verifyToken_issuer_changed sampleEnv (<["APP_NAME" := "Shop API"]> sampleEnv)
           1000 1000 "u1" noOptions _ 605800).
  - vm_compute. reflexivity.
  - vm_compute. reflexivity.
  - lia.
  - vm_compute. reflexivity.
  - intros H. vm_compute in H. discriminate H.
Defined.

(** X7. On an issued access token, [isTokenExpired] and [verifyToken]
    agree at every time other than the second of expiry itself:
    [isTokenExpired] says [true] exactly when [verifyToken] rejects the
    token as expired. *)
Theorem isTokenExpired_agrees_with_verifyToken
    (string_lt_number : string → Z → bool) (env : gmap string string) (now t : Z)
    (userId : string) (options : TokenOptions) (token : Token) (exp : Z) :
  generateToken env now userId options = Ok token →
  timespan (so_expiresIn (tokenOptions env options)) now = Some exp →
  exp ≠ 0 → t ≠ exp →
  (isTokenExpired string_lt_number token t = true
   ↔ verifyToken env t token = Throw TokenExpiredError).
Proof.
  intros Hgen Hexp Hnz Hne.
  pose proof Hgen as Hinv.
  apply generateToken_inv in Hinv as (key & exp' & Hsecret & Hkey & Hexp' & Htoken).
  rewrite Hexp in Hexp'. injection Hexp' as <-.
  assert (isTokenExpired string_lt_number token t = bool_decide (exp < t)) as ->.
  { rewrite Htoken. apply isTokenExpired_numeric; [|done].
    unfold signedPayload. rewrite !(lookup_insert_ne _ _ "exp") by done.
    apply lookup_insert_eq. }
  rewrite bool_decide_eq_true. split.
  - intros Hlt. rewrite Htoken. unfold verifyToken. rewrite Hsecret.
    apply (verify_expired _ _ _ _ exp); [done| | |lia]; unfold signedPayload.
    + rewrite !lookup_insert_ne by done. apply accessPayload_free. repeat constructor.
    + rewrite !(lookup_insert_ne _ _ "exp") by done. apply lookup_insert_eq.
  - intros Hthrow. destruct (decide (exp < t)) as [|Hge]; [done|].
    destruct (verifyToken_signed env now t userId options key exp Hsecret Hkey)
      as [Hok _]; [lia|].
    rewrite <- Htoken in Hok. rewrite Hok in Hthrow. discriminate Hthrow.
Qed.

Lemma isTokenExpired_agrees_with_verifyToken_witness :
  ∃ token,
    generateToken sampleEnv 1000 "u1" fractionalMinutes = Ok token
    ∧ (isTokenExpired (λ _ _, false) token 2044 = true
       ↔ verifyToken sampleEnv 2044 token = Throw TokenExpiredError).
Proof.
  eexists. split; [vm_compute; reflexivity|].
  apply (isTokenExpired_agrees_with_verifyToken (λ _ _, false) sampleEnv 1000 2044
           "u1" fractionalMinutes _ 2043).
  - vm_compute. reflexivity.
  - vm_compute. reflexivity.
  - lia.
  - lia.
Defined.

Lemma generateRefreshToken_inv (env : gmap string string) (now : Z) (userId : string)
    (token : Token) :
  generateRefreshToken env now userId = Ok token →
  ∃ key,
    env !! "JWT_SECRET" = Some key ∧ key ≠ ""
    ∧ token = Jws "HS256"
                (signedPayload {[ "userId" := JStr userId; "type" := JStr "refresh" ]}
                   now (now + 2592000)
                   {| so_expiresIn := JStr "30d"; so_issuer := issuer env;
                      so_audience := audience |})
                (SigHmac key).
Proof.
  intros Hgen. apply sign_inv in Hgen as (key & exp & Hsecret & Hkey & Hexp & ->).
  change (timestamp_of _ now) with now in *. cbn [so_expiresIn] in Hexp.
  rewrite timespan_30d in Hexp. injection Hexp as <-. by exists key.
Qed.

(** X8. [verifyToken] accepts a refresh token as it accepts an access
    token: until thirty days after its issue a refresh token verifies, and
    the decoded claims carry the user id and [type: 'refresh']. Telling the
    two kinds apart is left to the caller, by the [type] claim. *)
Theorem verifyToken_generateRefreshToken (env : gmap string string) (now now' : Z)
    (userId : string) (token : Token) :
  generateRefreshToken env now userId = Ok token →
  now' < now + 2592000 →
  ∃ decoded,
    verifyToken env now' token = Ok decoded
    ∧ decoded !! "userId" = Some (JStr userId)
    ∧ decoded !! "type" = Some (JStr "refresh").
Proof.
  intros Hgen Hlt.
  apply generateRefreshToken_inv in Hgen as (key & Hsecret & Hkey & ->).
  eexists. split; [|split].
  - unfold verifyToken. rewrite Hsecret.
    by apply (verify_ok _ _ _ _ (now + 2592000)).
  - done.
  - done.
Qed.

Lemma verifyToken_generateRefreshToken_witness :
  ∃ token decoded,
    generateRefreshToken sampleEnv 1000 "u1" = Ok token
    ∧ verifyToken sampleEnv 2000000 token = Ok decoded
    ∧ decoded !! "userId" = Some (JStr "u1")
    ∧ decoded !! "type" = Some (JStr "refresh").
Proof.
  eexists.
  destruct (verifyToken_generateRefreshToken sampleEnv 1000 2000000 "u1" _ eq_refl)
    as (decoded & Hok & Huser & Htype); [lia|].
  exists decoded. split; [reflexivity|]. split; [exact Hok|].
  split; [exact Huser|exact Htype].
Defined.

(** ** The script test-jwt.js *)

(** X9. With [JWT_SECRET] set, [JWT_EXPIRE] unset and a clock that
    stays within the tokens' lifetimes, the script prints both tokens, both
    decoded payloads, [false] for both expiry checks and the rejection of
    the invalid token, and no verification failure. *)
Theorem test_jwt_passes (string_lt_number : string → Z → bool)
    (env : gmap string string) (clock : nat → Z) (key : string) :
  env !! "JWT_SECRET" = Some key → key ≠ "" →
  env !! "JWT_EXPIRE" = None →
  0 ≤ clock 0%nat → 0 ≤ clock 1%nat →
  clock 2%nat < clock 0%nat + 604800 →
  clock 3%nat < clock 1%nat + 2592000 →
  clock 4%nat ≤ clock 0%nat + 604800 →
  clock 5%nat ≤ clock 1%nat + 2592000 →
  ∃ token refreshToken decodedToken decodedRefreshToken,
    generateToken env (clock 0%nat) TestJwt.testUserId testOptions = Ok token
    ∧ generateRefreshToken env (clock 1%nat) TestJwt.testUserId = Ok refreshToken
    ∧ decodedToken !! "userId" = Some (JStr TestJwt.testUserId)
    ∧ decodedRefreshToken !! "userId" = Some (JStr TestJwt.testUserId)
    ∧ TestJwt.run string_lt_number env clock
      = [ TestJwt.ConsoleLog ("Testing JWT functionality..." +:+ TestJwt.newline)
            TestJwt.Nothing;
          TestJwt.ConsoleLog "1. Generating tokens..." TestJwt.Nothing;
          TestJwt.ConsoleLog "Access Token:" (TestJwt.TokenValue token);
          TestJwt.ConsoleLog "Refresh Token:" (TestJwt.TokenValue refreshToken);
          TestJwt.ConsoleLog "" TestJwt.Nothing;
          TestJwt.ConsoleLog "2. Verifying tokens..." TestJwt.Nothing;
          TestJwt.ConsoleLog "Access Token Decoded:" (TestJwt.Decoded decodedToken);
          TestJwt.ConsoleLog "Refresh Token Decoded:"
            (TestJwt.Decoded decodedRefreshToken);
          TestJwt.ConsoleLog "" TestJwt.Nothing;
          TestJwt.ConsoleLog "3. Checking token expiration..." TestJwt.Nothing;
          TestJwt.ConsoleLog "Access Token Expired:" (TestJwt.Boolean false);
          TestJwt.ConsoleLog "Refresh Token Expired:" (TestJwt.Boolean false);
          TestJwt.ConsoleLog "" TestJwt.Nothing;
          TestJwt.ConsoleLog "4. Testing invalid token..." TestJwt.Nothing;
          TestJwt.ConsoleLog "Invalid token correctly rejected:"
            (TestJwt.ErrorMessage "invalid token");
          TestJwt.ConsoleLog (TestJwt.newline +:+ "JWT functionality test completed!")
            TestJwt.Nothing ].
Proof.
  intros Hsecret Hkey Hexpire H0 H1 H2 H3 H4 H5.
  assert (timespan (so_expiresIn (tokenOptions env testOptions)) (clock 0%nat)
          = Some (clock 0%nat + 604800)) as Hexp.
  { unfold tokenOptions, or_string. cbn [so_expiresIn expiresIn testOptions].
    rewrite Hexpire. change (env_or None "7d") with "7d". apply timespan_7d. }
  pose proof (generateToken_ok env (clock 0%nat) TestJwt.testUserId testOptions key _
                Hsecret Hkey Hexp) as Hgen.
  destruct (verifyToken_signed env (clock 0%nat) (clock 2%nat) TestJwt.testUserId
              testOptions key _ Hsecret Hkey H2) as [Hverify Huser].
  assert (∃ refreshToken, generateRefreshToken env (clock 1%nat) TestJwt.testUserId
                          = Ok refreshToken) as [refreshToken Hgen'].
  { unfold generateRefreshToken. rewrite Hsecret. eexists.
    apply (sign_ok _ _ _ _ (clock 1%nat + 2592000)); [done| |apply timespan_30d].
    intros k Hk. repeat (apply elem_of_cons in Hk as [->|Hk]; [done|]).
    by apply elem_of_nil in Hk. }
  assert (∃ decodedRefresh,
            verifyToken env (clock 3%nat) refreshToken = Ok decodedRefresh
            ∧ decodedRefresh !! "userId" = Some (JStr TestJwt.testUserId))
    as (decodedRefresh & Hverify' & Huser').
  { pose proof Hgen' as Hinv.
    apply generateRefreshToken_inv in Hinv as (key' & Hsecret' & _ & ->).
    rewrite Hsecret in Hsecret'. injection Hsecret' as <-.
    eexists. split.
    - unfold verifyToken. rewrite Hsecret.
      by apply (verify_ok _ _ _ _ (clock 1%nat + 2592000)).
    - done. }
  eexists _, refreshToken, _, decodedRefresh.
  split; [exact Hgen|]. split; [exact Hgen'|]. split; [exact Huser|].
  split; [exact Huser'|].
  unfold TestJwt.run, TestJwt.verifying, TestJwt.invalidToken.
  change {| JwtUtils.role := Some (JStr "user");
            JwtUtils.email := Some (JStr "test@example.com"); expiresIn := None |}
    with testOptions.
  rewrite Hgen, Hgen', Hverify, Hverify'.
  rewrite (isTokenExpired_numeric _ _ _ _ (clock 0%nat + 604800)); [| |lia].
  2: { unfold signedPayload. rewrite !(lookup_insert_ne _ _ "exp") by done.
       apply lookup_insert_eq. }
  apply generateRefreshToken_inv in Hgen' as (key' & _ & _ & ->).
  rewrite (isTokenExpired_numeric _ _ _ _ (clock 1%nat + 2592000)); [|done|lia].
  rewrite !bool_decide_eq_false_2 by lia. done.
Qed.

Lemma test_jwt_passes_witness :
  ∃ token refreshToken,
    generateToken sampleEnv 1700000000 TestJwt.testUserId testOptions = Ok token
    ∧ generateRefreshToken sampleEnv 1700000000 TestJwt.testUserId = Ok refreshToken
    ∧ last (TestJwt.run (λ _ _, false) sampleEnv (λ _, 1700000000))
      = Some (TestJwt.ConsoleLog
                (TestJwt.newline +:+ "JWT functionality test completed!")
                TestJwt.Nothing).
Proof.
  destruct (test_jwt_passes (λ _ _, false) sampleEnv (λ _, 1700000000) "s3cret")
    as (token & refreshToken & ? & ? & Hgen & Hgen' & _ & _ & Hrun);
    [reflexivity|discriminate|reflexivity|lia..|].
  exists token, refreshToken. split; [exact Hgen|]. split; [exact Hgen'|].
  rewrite Hrun. reflexivity.
Defined.

(** X10. Without a usable [JWT_SECRET] the script ends at its first
    step: generating the access token throws outside any [try], and
    nothing is verified or checked. *)
Theorem test_jwt_without_secret (string_lt_number : string → Z → bool)
    (env : gmap string string) (clock : nat → Z) :
  env_truthy (env !! "JWT_SECRET") = false →
  TestJwt.run string_lt_number env clock
  = [ TestJwt.ConsoleLog ("Testing JWT functionality..." +:+ TestJwt.newline)
        TestJwt.Nothing;
      TestJwt.ConsoleLog "1. Generating tokens..." TestJwt.Nothing;
      TestJwt.Uncaught (Error "secretOrPrivateKey must have a value") ].
Proof.
  intros Hsecret. unfold TestJwt.run, generateToken, sign. by rewrite Hsecret.
Qed.

Lemma test_jwt_without_secret_witness :
  last (TestJwt.run (λ _ _, false) ∅ (λ _, 1700000000))
  = Some (TestJwt.Uncaught (Error "secretOrPrivateKey must have a value")).
Proof.
  rewrite (test_jwt_without_secret (λ _ _, false) ∅ (λ _, 1700000000)); reflexivity.
Defined.


(** ** The start-up script *)

(** X11. The script ends in one of two ways. It loads the server, as
    its last act and with the variables of [.env] merged into the
    environment, exactly when the [.env] file exists and both required
    variables are non-empty; otherwise it ends with exit code 1. A missing
    [.env] file ends it even when both variables are set in the inherited
    environment. *)
Theorem start_loads_server_iff (envFile : option (gmap string string))
    (processEnv : gmap string string) :
  let ready :=
    is_Some envFile
    ∧ env_truthy (startupEnv envFile processEnv !! "JWT_SECRET") = true
    ∧ env_truthy (startupEnv envFile processEnv !! "MONGODB_URI") = true in
  (last (start envFile processEnv)
   = Some (RequireServer (startupEnv envFile processEnv)) ↔ ready)
  ∧ (last (start envFile processEnv) = Some (ProcessExit 1) ↔ ¬ ready).
Proof.
  unfold start, startupEnv.
  destruct envFile as [fileVars|]; simpl.
  - destruct (env_truthy (dotenv_config fileVars processEnv !! "JWT_SECRET"));
      destruct (env_truthy (dotenv_config fileVars processEnv !! "MONGODB_URI"));
      simpl; (split; split); intros H; try done;
      try (by destruct H as (_ & ? & ?));
      try (by intros (_ & ? & ?));
      try (split; [by eexists|done]).
    all: try (exfalso; apply H; split; [by eexists|done]).
  - split; split; intros H; try done.
    + by destruct H as ([? [=]] & _).
    + by intros ([? [=]] & _).
Qed.

(** X12. When the [.env] file exists, the script names a required
    variable on a line of its own exactly when that variable is missing or
    empty. *)
Theorem start_names_missing (fileVars processEnv : gmap string string) (envVar : string) :
  envVar ∈ requiredEnvVars →
  (Start.ConsoleLog ("  - " +:+ envVar) ∈ start (Some fileVars) processEnv
   ↔ env_truthy (dotenv_config fileVars processEnv !! envVar) = false).
Proof.
  intros HenvVar. unfold start, requiredEnvVars in *. simpl.
  assert (envVar = "JWT_SECRET" ∨ envVar = "MONGODB_URI") as Hcases.
  { repeat (apply elem_of_cons in HenvVar as [->|HenvVar]); auto.
    by apply elem_of_nil in HenvVar. }
  clear HenvVar.
  destruct (env_truthy (dotenv_config fileVars processEnv !! "JWT_SECRET")) eqn:H1;
    destruct (env_truthy (dotenv_config fileVars processEnv !! "MONGODB_URI")) eqn:H2;
    simpl; destruct Hcases as [-> | ->]; rewrite ?H1, ?H2; split; try done.
  all: try solve [intros _; repeat first [apply list_elem_of_here|apply list_elem_of_further]].
  all: intros Hin;
    repeat (apply elem_of_cons in Hin as [Hin|Hin];
            [try discriminate Hin;
             try (injection Hin as Hin; vm_compute in Hin; discriminate Hin)|]);
    by apply elem_of_nil in Hin.
Qed.

Lemma start_names_missing_witness :
  Start.ConsoleLog "  - JWT_SECRET"
  ∈ start (Some ∅) {[ "MONGODB_URI" := "mongodb://db/app" ]}.
Proof.
  apply (start_names_missing ∅ {[ "MONGODB_URI" := "mongodb://db/app" ]} "JWT_SECRET").
  - repeat constructor.
  - vm_compute. reflexivity.
Defined.

(** ** The update schema *)

Lemma validateString_max (key : string) (m : nat) (v : JVal) :
  Joi.validateString key {| Joi.min := None; Joi.max := Some m |} v = None
  ↔ ∃ s, v = JStr s ∧ s ≠ "" ∧ (utf16_length s ≤ m)%nat.
Proof.
  destruct v as [| | |s]; simpl; try (split; [done|by intros (? & [=] & _)]).
  destruct (String.eqb_spec s "") as [->|Hne].
  - split; [done|]. by intros (? & [= <-] & ? & _).
  - destruct (Nat.ltb_spec m (utf16_length s)).
    + split; [done|]. intros (? & [= <-] & _ & ?). lia.
    + split; [|done]. intros _. exists s. repeat split; [done|lia].
Qed.

Lemma validateString_min_max (key : string) (n m : nat) (v : JVal) :
  (0 < n)%nat →
  Joi.validateString key {| Joi.min := Some n; Joi.max := Some m |} v = None
  ↔ ∃ s, v = JStr s ∧ (n ≤ utf16_length s ≤ m)%nat.
Proof.
  intros Hn.
  destruct v as [| | |s]; simpl; try (split; [done|by intros (? & [=] & _)]).
  destruct (String.eqb_spec s "") as [->|Hne].
  - split; [done|]. intros (? & [= <-] & Hlen). simpl in Hlen. lia.
  - destruct (Nat.ltb_spec (utf16_length s) n).
    + split; [done|]. intros (? & [= <-] & ?). lia.
    + destruct (Nat.ltb_spec m (utf16_length s)).
      * split; [done|]. intros (? & [= <-] & ?). lia.
      * split; [|done]. intros _. exists s. split; [done|lia].
Qed.

Lemma filter_nil_iff {A : Type} (f : A → bool) (l : list A) :
  List.filter f l = [] ↔ ∀ x, x ∈ l → f x = false.
Proof.
  induction l as [|a l IH]; simpl.
  - split; [|done]. intros _ x Hin. by apply elem_of_nil in Hin.
  - destruct (f a) eqn:Hfa.
    + split; [done|]. intros Hall. specialize (Hall a (list_elem_of_here _ _)).
      congruence.
    + rewrite IH. split.
      * intros Hall x [->|Hin]%elem_of_cons; auto.
      * intros Hall x Hin. apply Hall. by apply list_elem_of_further.
Qed.

Lemma keys_of_body (body : gmap string JVal) (key : string) :
  key ∈ (map_to_list body).*1 ↔ is_Some (body !! key).
Proof.
  rewrite list_elem_of_fmap. split.
  - intros ([k v] & -> & Hin). apply elem_of_map_to_list in Hin. by exists v.
  - intros [v Hv]. exists (key, v). split; [done|]. by apply elem_of_map_to_list.
Qed.

(** Lengths are counted in UTF-16 code units, not in bytes: a user name
    of two accented letters is too short, one of 26 is not too long, and
    a letter followed by a character outside the basic plane has the
    three units that [min(3)] asks for. *)
Example updateUserSchema_code_units :
  utf16_length twoLetters = 2%nat
  ∧ utf16_length twentySixLetters = 26%nat
  ∧ utf16_length letterAndPair = 3%nat
  ∧ Joi.validate UsersRoute.updateUserSchema {[ "username" := JStr twoLetters ]}
    = Some (Joi.StringMin "username" 3)
  ∧ Joi.validate UsersRoute.updateUserSchema {[ "username" := JStr twentySixLetters ]}
    = None
  ∧ Joi.validate UsersRoute.updateUserSchema {[ "username" := JStr letterAndPair ]}
    = None.
Proof. repeat split; vm_compute; reflexivity. Qed.

(** What the handler makes of these bodies: 400 with the validation
    error for the user name of two letters, the update for the one of
    26. *)
Example put_id_code_units :
  let short := {| user := asUser aliceId "user"; params_id := aliceId;
                  body := {[ "username" := JStr twoLetters ]} |} in
  let long := {| user := asUser aliceId "user"; params_id := aliceId;
                 body := {[ "username" := JStr twentySixLetters ]} |} in
  UsersRoute.put_id castHex24 1700000500000 short sampleStore
  = ({| status := 400; success := false;
        message := Some (Detail (Joi.StringMin "username" 3));
        payload := None |}, sampleStore)
  ∧ status (UsersRoute.put_id castHex24 1700000500000 long sampleStore).1 = 200
  ∧ (username <$> users (UsersRoute.put_id castHex24 1700000500000 long
                           sampleStore).2 !! aliceId)
    = Some twentySixLetters.
Proof. repeat split; vm_compute; reflexivity. Qed.

(** X13. [updateUserSchema] accepts a body exactly when it has no key
    other than [firstName], [lastName] and [username], the first two are
    missing or non-empty strings of a [.length] of at most 50 (UTF-16
    code units), and [username] is missing or a string of a [.length] of
    3 to 30. *)
Theorem updateUserSchema_accepts_iff (body : gmap string JVal) :
  Joi.validate UsersRoute.updateUserSchema body = None ↔ validUpdateBody body.
Proof.
  unfold Joi.validate, validUpdateBody.
  assert (Joi.validateKeys UsersRoute.updateUserSchema body = None
          ↔ (∀ v, body !! "firstName" = Some v →
               ∃ s, v = JStr s ∧ s ≠ "" ∧ (utf16_length s ≤ 50)%nat)
            ∧ (∀ v, body !! "lastName" = Some v →
                 ∃ s, v = JStr s ∧ s ≠ "" ∧ (utf16_length s ≤ 50)%nat)
            ∧ (∀ v, body !! "username" = Some v →
                 ∃ s, v = JStr s ∧ (3 ≤ utf16_length s ≤ 30)%nat)) as Hkeys.
  { unfold UsersRoute.updateUserSchema. simpl.
    destruct (body !! "firstName") as [v1|];
      destruct (body !! "lastName") as [v2|];
      destruct (body !! "username") as [v3|].
    all: repeat match goal with
           | |- context [Joi.validateString ?k {| Joi.min := None; Joi.max := Some ?m |} ?v] =>
               let E := fresh "E" in
               destruct (Joi.validateString k {| Joi.min := None; Joi.max := Some m |} v)
                 eqn:E;
               [assert (¬ ∃ s, v = JStr s ∧ s ≠ "" ∧ (utf16_length s ≤ m)%nat)
                  by (rewrite <- validateString_max, E; done)
               |apply validateString_max in E]
           | |- context [Joi.validateString ?k {| Joi.min := Some ?n; Joi.max := Some ?m |} ?v] =>
               let E := fresh "E" in
               destruct (Joi.validateString k {| Joi.min := Some n; Joi.max := Some m |} v)
                 eqn:E;
               [assert (¬ ∃ s, v = JStr s ∧ (n ≤ utf16_length s ≤ m)%nat)
                  by (rewrite <- (validateString_min_max k n m v), E; [done|lia])
               |apply validateString_min_max in E; [|lia]]
           end.
    all: split; [try done|try done].
    all: try (intros _; repeat split; intros ? [= <-]; done).
    all: try (intros _; repeat split; intros ? [=]; done).
    all: try (intros (Hf & Hl & Hu); exfalso;
              first [apply H; by apply Hf | apply H; by apply Hl | apply H; by apply Hu
                    | apply H0; by apply Hf | apply H0; by apply Hl | apply H0; by apply Hu]).
  }
  destruct (Joi.validateKeys UsersRoute.updateUserSchema body) as [err|] eqn:Hv.
  - split; [done|]. intros (_ & Hrest). apply Hkeys in Hrest. done.
  - destruct (List.filter _ _) as [|key rest] eqn:Hunknown.
    + split; [|done]. intros _. split; [|by apply Hkeys].
      intros key Hkey. apply keys_of_body in Hkey.
      rewrite filter_nil_iff in Hunknown. apply Hunknown in Hkey.
      apply negb_false_iff, bool_decide_eq_true in Hkey. exact Hkey.
    + split; [done|]. intros (Hdom & _).
      assert (key ∈ key :: rest) as Hin by apply list_elem_of_here.
      rewrite <- Hunknown in Hin. apply list_elem_of_In, filter_In in Hin as [Hin Hf].
      apply list_elem_of_In, keys_of_body, Hdom in Hin.
      apply negb_true_iff, bool_decide_eq_false in Hf. by destruct Hf.
Qed.

(** ** The users routes, continued *)

(** X14. A body with any key outside the schema ([role], [email],
    [password], [isActive], ...) is answered 400 by [PUT /users/:id] and
    nothing is written, whoever sends it: the route cannot be used to set
    a field that the schema does not list. *)
Theorem put_id_rejects_unlisted_key (castObjectId : string → option string) (now : Z)
    (req : Request) (st : Store) (key : string) :
  is_Some (body req !! key) →
  key ∉ ["firstName"; "lastName"; "username"] →
  status (UsersRoute.put_id castObjectId now req st).1 = 400
  ∧ (UsersRoute.put_id castObjectId now req st).2 = st.
Proof.
  intros Hkey Hunlisted. unfold UsersRoute.put_id.
  destruct (Joi.validate UsersRoute.updateUserSchema (body req)) as [err|] eqn:Hvalid;
    [done|].
  exfalso. unfold Joi.validate in Hvalid.
  destruct (Joi.validateKeys _ _); [done|].
  destruct (List.filter _ _) as [|unknown rest] eqn:Hfilter; [|done].
  rewrite filter_nil_iff in Hfilter.
  apply keys_of_body, Hfilter in Hkey.
  apply negb_false_iff, bool_decide_eq_true in Hkey. by apply Hunlisted.
Qed.

Lemma put_id_rejects_unlisted_key_witness :
  status (UsersRoute.put_id castHex24 1700000500000 rootPromotesBob sampleStore).1 = 400
  ∧ (UsersRoute.put_id castHex24 1700000500000 rootPromotesBob sampleStore).2
    = sampleStore.
Proof.
  apply (put_id_rejects_unlisted_key castHex24 1700000500000 rootPromotesBob sampleStore
           "role").
  - vm_compute. eauto.
  - intros Hin. repeat (apply elem_of_cons in Hin as [Hin|Hin]; [discriminate Hin|]).
    by apply elem_of_nil in Hin.
Defined.



(** X16. The three writing users routes write only when they answer
    200: after any other answer of [PUT /users/:id], [DELETE /users/:id]
    or [PUT /users/:id/toggle-status] the store is as it was. *)
Theorem users_routes_write_only_on_success (castObjectId : string → option string)
    (now : Z) (req : Request) (st : Store) :
  (status (UsersRoute.put_id castObjectId now req st).1 ≠ 200 →
   (UsersRoute.put_id castObjectId now req st).2 = st)
  ∧ (status (UsersRoute.delete_id_handler castObjectId req st).1 ≠ 200 →
     (UsersRoute.delete_id_handler castObjectId req st).2 = st)
  ∧ (status (UsersRoute.toggle_status_handler castObjectId req st).1 ≠ 200 →
     (UsersRoute.toggle_status_handler castObjectId req st).2 = st).
Proof.
  split; [|split].
  - unfold UsersRoute.put_id.
    destruct (Joi.validate _ _); [done|].
    destruct (bool_decide _ && bool_decide _); [done|].
    destruct (if truthy_opt _ then _ else _) as [[existing|]|]; [done| |done].
    destruct (findByIdAndUpdate _ _ _ _) as [[[[oid u]|] users']|]; done.
  - unfold UsersRoute.delete_id_handler.
    destruct (findById _ _ _) as [[[oid u]|]|]; try done.
    destruct (bool_decide _); [done|].
    destruct (findByIdAndDelete _ _ _); done.
  - unfold UsersRoute.toggle_status_handler.
    destruct (findById _ _ _) as [[[oid u]|]|]; try done.
    destruct (bool_decide _); done.
Qed.

Lemma users_routes_write_only_on_success_witness :
  (UsersRoute.put_id castHex24 1700000500000 aliceTakesBob sampleStore).2 = sampleStore.
Proof.
  apply (users_routes_write_only_on_success castHex24 1700000500000 aliceTakesBob
           sampleStore).
  vm_compute. discriminate.
Defined.

(** X17. [PUT /users/:id] keeps user names unique: if no two stored
    users share a user name before the request, none do after it, whatever
    the request. *)
Theorem put_id_keeps_usernames_unique (castObjectId : string → option string) (now : Z)
    (req : Request) (st : Store) :
  uniqueUsernames (users st) →
  uniqueUsernames (users (UsersRoute.put_id castObjectId now req st).2).
Proof.
  intros Huniq.
  destruct (Joi.validate UsersRoute.updateUserSchema (body req)) as [err|] eqn:Hvalid.
  { unfold UsersRoute.put_id. by rewrite Hvalid. }
  destruct (put_id_cases castObjectId now req st Hvalid)
    as [[_ ->]|[(_ & _ & ->)|[(_ & _ & _ & _ & ->)|[(_ & _ & _ & _ & _ & ->)
       |(_ & (oid & Hcast & Hfree & _) & (oid' & u & Hcast' & Hu & Hput))]]]];
    try done.
  rewrite Hcast in Hcast'. injection Hcast' as <-.
  simpl in Hput. rewrite Hput. simpl.
  set (u' := UsersRoute.userUpdate _ _ _ _ u).
  assert (username u' = username u
          ∨ body req !! "username" = Some (JStr (username u'))) as Hname.
  { unfold u', UsersRoute.userUpdate, UsersRoute.setPath. simpl.
    destruct (body req !! "username") as [[| | |s]|]; auto. }
  intros k1 k2 u1 u2 H1 H2 Heq.
  destruct (decide (k1 = oid)) as [->|Hne1]; destruct (decide (k2 = oid)) as [->|Hne2];
    [done| | |].
  - rewrite lookup_insert_eq in H1. rewrite lookup_insert_ne in H2 by done.
    injection H1 as <-. destruct Hname as [Hsame|Hnew].
    + symmetry. apply (Huniq k2 oid u2 u); [done|done|congruence].
    + destruct Hfree. exists k2, u2. split; [done|]. split; [done|]. congruence.
  - rewrite lookup_insert_ne in H1 by done. rewrite lookup_insert_eq in H2.
    injection H2 as <-. destruct Hname as [Hsame|Hnew].
    + apply (Huniq k1 oid u1 u); [done|done|congruence].
    + destruct Hfree. exists k1, u1. split; [done|]. split; [done|]. congruence.
  - rewrite lookup_insert_ne in H1, H2 by done. by apply (Huniq k1 k2 u1 u2).
Qed.

Lemma sampleStore_unique : uniqueUsernames (users sampleStore).
Proof.
  intros k1 k2 u1 u2 H1 H2 Heq. unfold sampleStore in *. simpl in *.
  apply lookup_insert_Some in H1 as [[<- <-]|[_ H1]];
    [|apply lookup_insert_Some in H1 as [[<- <-]|[_ H1]];
      [|apply lookup_singleton_Some in H1 as [<- <-]]];
    (apply lookup_insert_Some in H2 as [[<- <-]|[_ H2]];
     [|apply lookup_insert_Some in H2 as [[<- <-]|[_ H2]];
       [|apply lookup_singleton_Some in H2 as [<- <-]]]);
    first [reflexivity|discriminate Heq].
Qed.

Lemma put_id_keeps_usernames_unique_witness :
  uniqueUsernames
    (users (UsersRoute.put_id castHex24 1700000500000 rootRenamesBob sampleStore).2).
Proof.
  apply (put_id_keeps_usernames_unique castHex24 1700000500000 rootRenamesBob sampleStore).
  exact sampleStore_unique.
Defined.

(** X18. With unique user names, sending one's current user name back
    is not a conflict: the search for a holder of the name leaves out the
    record addressed, and the update is performed. *)
Theorem put_id_own_username (castObjectId : string → option string) (now : Z)
    (req : Request) (st : Store) (oid : string) (u : User) :
  uniqueUsernames (users st) →
  Joi.validate UsersRoute.updateUserSchema (body req) = None →
  authorized req →
  castObjectId (params_id req) = Some oid →
  users st !! oid = Some u →
  body req !! "username" = Some (JStr (username u)) →
  updatePerformed castObjectId now req st.
Proof.
  intros Huniq Hvalid Hok Hcast Hu Hname.
  destruct (put_id_cases castObjectId now req st Hvalid)
    as [[Hno _]|[(_ & Hcast' & _)|[(_ & oid' & Hcast' & Hheld & _)
       |[(_ & oid' & Hcast' & _ & Hnone & _)|(_ & _ & Hdone)]]]].
  - done.
  - congruence.
  - rewrite Hcast in Hcast'. injection Hcast' as <-.
    destruct Hheld as (k & u2 & Hk & Hne & Hsame).
    rewrite Hname in Hsame. injection Hsame as Hsame.
    destruct Hne. by apply (Huniq k oid u2 u).
  - congruence.
  - done.
Qed.

Lemma put_id_own_username_witness :
  updatePerformed castHex24 1700000500000 bobKeepsName sampleStore.
Proof.
  apply (put_id_own_username castHex24 1700000500000 bobKeepsName sampleStore bobId
           (sampleUser "bob" "bob@example.com" "user")).
  - exact sampleStore_unique.
  - vm_compute. reflexivity.
  - by left.
  - vm_compute. reflexivity.
  - vm_compute. reflexivity.
  - vm_compute. reflexivity.
Defined.

(** X19. Toggling the status of another user twice gives the active
    flag back: after the second toggle every user's flag is what it was
    before the first, and the two answers name opposite states. *)
Theorem toggle_status_twice (castObjectId : string → option string)
    (req : Request) (st : Store) (oid : string) (u : User) :
  castObjectId (params_id req) = Some oid →
  users st !! oid = Some u →
  userId (user req) ≠ Some (JStr (params_id req)) →
  let once := UsersRoute.toggle_status_handler castObjectId req st in
  let twice := UsersRoute.toggle_status_handler castObjectId req once.2 in
  status once.1 = 200 ∧ status twice.1 = 200
  ∧ (isActive <$> users once.2 !! oid) = Some (negb (isActive u))
  ∧ (∀ k, (isActive <$> users twice.2 !! k) = (isActive <$> users st !! k))
  ∧ products twice.2 = products st.
Proof.
  intros Hcast Hu Hother. simpl.
  unfold UsersRoute.toggle_status_handler, findById, save.
  rewrite Hcast, Hu. simpl.
  rewrite (bool_decide_eq_false_2 _ Hother). simpl.
  rewrite lookup_insert_eq. simpl.
  split; [done|]. split; [done|]. split; [done|].
  split; [|done]. intros k. destruct (decide (k = oid)) as [->|Hne].
  - rewrite lookup_insert_eq, Hu. simpl. by rewrite negb_involutive.
  - by rewrite !lookup_insert_ne.
Qed.

Lemma toggle_status_twice_witness :
  let once := UsersRoute.toggle_status_handler castHex24 rootOnBob sampleStore in
  let twice := UsersRoute.toggle_status_handler castHex24 rootOnBob once.2 in
  (isActive <$> users once.2 !! bobId) = Some false
  ∧ (isActive <$> users twice.2 !! bobId) = Some true.
Proof.
  destruct (toggle_status_twice castHex24 rootOnBob sampleStore bobId
              (sampleUser "bob" "bob@example.com" "user"))
    as (_ & _ & Honce & Htwice & _).
  - vm_compute. reflexivity.
  - vm_compute. reflexivity.
  - discriminate.
  - split; [exact Honce|]. rewrite (Htwice bobId). vm_compute. reflexivity.
Defined.

(** X20. [DELETE /users/:id] on another user's id removes that one
    record and nothing else; the user's products stay, and a public read
    of one of them then shows no creator. *)
Theorem delete_user_leaves_products (castObjectId : string → option string)
    (req : Request) (st : Store) (oid : string) (u : User)
    (productId poid : string) (p : Product) :
  castObjectId (params_id req) = Some oid →
  users st !! oid = Some u →
  userId (user req) ≠ Some (JStr (params_id req)) →
  castObjectId productId = Some poid →
  products st !! poid = Some p →
  p_isActive p = true →
  p_createdBy p = oid →
  let st' := (UsersRoute.delete_id_handler castObjectId req st).2 in
  status (UsersRoute.delete_id_handler castObjectId req st).1 = 200
  ∧ users st' = delete oid (users st)
  ∧ products st' = products st
  ∧ ProductsRoute.get_id castObjectId productId st'
    = {| status := 200; success := true; message := None;
         payload := Some {| ProductsRoute.doc_id := poid; ProductsRoute.doc := p;
                            ProductsRoute.createdBy := None |} |}.
Proof.
  intros Hcast Hu Hother Hpcast Hp Hactive Hcreator. simpl.
  unfold UsersRoute.delete_id_handler, findById, findByIdAndDelete.
  rewrite Hcast, Hu. simpl. rewrite (bool_decide_eq_false_2 _ Hother). simpl.
  split; [done|]. split; [done|]. split; [done|].
  unfold ProductsRoute.get_id, findById. simpl. rewrite Hpcast, Hp. simpl.
  rewrite Hactive. simpl. unfold ProductsRoute.populate. simpl.
  by rewrite Hcreator, lookup_delete_eq.
Qed.

Lemma delete_user_leaves_products_witness :
  let st' := (UsersRoute.delete_id_handler castHex24 aliceDeletesRoot sampleStore).2 in
  users st' !! rootId = None
  ∧ (ProductsRoute.createdBy
       <$> payload (ProductsRoute.get_id castHex24 laptopId st')) = Some None.
Proof.
  destruct (delete_user_leaves_products castHex24 aliceDeletesRoot sampleStore rootId
              (sampleUser "admin" "admin@example.com" "admin") laptopId laptopId
              (sampleProduct "Sample Laptop" true))
    as (_ & Husers & _ & Hget); try (vm_compute; reflexivity).
  - discriminate.
  - simpl. split.
    + rewrite Husers. apply lookup_delete_eq.
    + rewrite Hget. reflexivity.
Defined.

(** ** The products routes, continued *)

(** X21. A product that an admin has deleted is no longer served:
    after [DELETE /products/:id] on an existing product the public
    [GET /products/:id] answers 404, although the record is still stored. *)
Theorem delete_then_get_not_found (castObjectId : string → option string) (now : Z)
    (req : Request) (st : Store) (oid : string) (p : Product) :
  castObjectId (params_id req) = Some oid →
  products st !! oid = Some p →
  let st' := (ProductsRoute.delete_id_handler castObjectId now req st).2 in
  is_Some (products st' !! oid)
  ∧ ProductsRoute.get_id castObjectId (params_id req) st'
    = failure 404 "Product not found".
Proof.
  intros Hcast Hp. simpl.
  unfold ProductsRoute.delete_id_handler, findByIdAndUpdate. rewrite Hcast, Hp. simpl.
  split; [by rewrite lookup_insert_eq|].
  unfold ProductsRoute.get_id, findById. simpl. rewrite Hcast, lookup_insert_eq. done.
Qed.

Lemma delete_then_get_not_found_witness :
  ProductsRoute.get_id castHex24 laptopId sampleStore
  ≠ failure 404 "Product not found"
  ∧ ProductsRoute.get_id castHex24 laptopId
      (ProductsRoute.delete_id_handler castHex24 1700000500000 rootDeletesLaptop
         sampleStore).2
    = failure 404 "Product not found".
Proof.
  split; [vm_compute; discriminate|].
  apply (delete_then_get_not_found castHex24 1700000500000 rootDeletesLaptop sampleStore
           laptopId (sampleProduct "Sample Laptop" true));
    vm_compute; reflexivity.
Defined.

(** X22. Deleting a product again is not an error: the second
    [DELETE /products/:id] answers 200 like the first, not 404, and the
    store is what a single delete at the later time would have left. *)
Theorem delete_product_twice (castObjectId : string → option string) (now1 now2 : Z)
    (req : Request) (st : Store) (oid : string) (p : Product) :
  castObjectId (params_id req) = Some oid →
  products st !! oid = Some p →
  let once := ProductsRoute.delete_id_handler castObjectId now1 req st in
  let twice := ProductsRoute.delete_id_handler castObjectId now2 req once.2 in
  status once.1 = 200 ∧ twice.1 = once.1
  ∧ twice.2 = (ProductsRoute.delete_id_handler castObjectId now2 req st).2.
Proof.
  intros Hcast Hp. simpl.
  unfold ProductsRoute.delete_id_handler, findByIdAndUpdate. rewrite Hcast, Hp. simpl.
  rewrite lookup_insert_eq. simpl.
  split; [done|]. split; [done|].
  unfold ProductsRoute.withProducts. simpl. by rewrite insert_insert_eq.
Qed.

Lemma delete_product_twice_witness :
  let once := ProductsRoute.delete_id_handler castHex24 1700000500000 rootDeletesLaptop
                sampleStore in
  let twice := ProductsRoute.delete_id_handler castHex24 1700000600000 rootDeletesLaptop
                 once.2 in
  status once.1 = 200 ∧ twice.1 = once.1
  ∧ twice.2 = (ProductsRoute.delete_id_handler castHex24 1700000600000 rootDeletesLaptop
                 sampleStore).2.
Proof.
  apply (delete_product_twice castHex24 1700000500000 1700000600000 rootDeletesLaptop
           sampleStore laptopId (sampleProduct "Sample Laptop" true));
    vm_compute; reflexivity.
Defined.

(** X23. [DELETE /products/:id] answers 404 exactly when the id is an
    identifier that no product has, and writes nothing unless it answers
    200; it never touches the users or any other product. *)
Theorem delete_product_failures (castObjectId : string → option string) (now : Z)
    (req : Request) (st : Store) :
  let result := ProductsRoute.delete_id_handler castObjectId now req st in
  (status result.1 = 404
   ↔ ∃ oid, castObjectId (params_id req) = Some oid ∧ products st !! oid = None)
  ∧ (status result.1 ≠ 200 → result.2 = st)
  ∧ users result.2 = users st
  ∧ (∀ k, castObjectId (params_id req) ≠ Some k →
       products result.2 !! k = products st !! k).
Proof.
  simpl. unfold ProductsRoute.delete_id_handler, findByIdAndUpdate.
  destruct (castObjectId (params_id req)) as [oid|] eqn:Hcast; simpl.
  - destruct (products st !! oid) as [p|] eqn:Hp; simpl.
    + split; [|split; [done|split; [done|]]].
      * split; [done|]. intros (oid' & [= <-] & Hnone). congruence.
      * intros k Hk. apply lookup_insert_ne. congruence.
    + split; [|done]. split; [|done]. intros _. by exists oid.
  - split; [|done]. split; [done|]. by intros (? & [=] & _).
Qed.

Lemma delete_product_failures_witness :
  let req := {| user := asUser rootId "admin";
                params_id := "64b7f1f77bcf86cd79943aff"; body := ∅ |} in
  (ProductsRoute.delete_id_handler castHex24 1700000500000 req sampleStore).2
  = sampleStore.
Proof.
  simpl.
  apply (delete_product_failures castHex24 1700000500000
           {| user := asUser rootId "admin"; params_id := "64b7f1f77bcf86cd79943aff";
              body := ∅ |} sampleStore).
  vm_compute. discriminate.
Defined.

(** ** Identifiers that are not ObjectIds *)

(** X24. A [:id] that the store cannot cast to an ObjectId makes the
    query throw, and every handler that looks the id up answers 500
    'Server error' from its [catch], with nothing written: the reads and
    the admin handlers at once, [PUT /users/:id] once the body has passed
    the schema and the requester the ownership check. *)
Theorem malformed_id_server_error (castObjectId : string → option string) (now : Z)
    (req : Request) (st : Store) :
  castObjectId (params_id req) = None →
  UsersRoute.get_id castObjectId req st = serverError
  ∧ UsersRoute.delete_id_handler castObjectId req st = (serverError, st)
  ∧ UsersRoute.toggle_status_handler castObjectId req st = (serverError, st)
  ∧ ProductsRoute.get_id castObjectId (params_id req) st = serverError
  ∧ ProductsRoute.delete_id_handler castObjectId now req st = (serverError, st)
  ∧ (Joi.validate UsersRoute.updateUserSchema (body req) = None → authorized req →
     UsersRoute.put_id castObjectId now req st = (serverError, st)).
Proof.
  intros Hcast.
  unfold UsersRoute.get_id, UsersRoute.delete_id_handler,
    UsersRoute.toggle_status_handler, ProductsRoute.get_id,
    ProductsRoute.delete_id_handler, findById, findByIdAndUpdate.
  rewrite Hcast. do 5 (split; [done|]).
  intros Hvalid Hok.
  destruct (put_id_cases castObjectId now req st Hvalid)
    as [[Hno _]|[(_ & _ & ->)|[(_ & oid & Hcast' & _)|[(_ & oid & Hcast' & _)
       |(_ & (oid & Hcast' & _) & _)]]]]; try done; congruence.
Qed.

Lemma malformed_id_server_error_witness :
  let req := {| user := asUser rootId "admin"; params_id := "me"; body := ∅ |} in
  UsersRoute.get_id castHex24 req sampleStore = serverError
  ∧ UsersRoute.delete_id_handler castHex24 req sampleStore = (serverError, sampleStore).
Proof.
  simpl.
  destruct (malformed_id_server_error castHex24 0
              {| user := asUser rootId "admin"; params_id := "me"; body := ∅ |}
              sampleStore eq_refl) as (Hget & Hdelete & _).
  split; [exact Hget|exact Hdelete].
Defined.
